(** * Stock dashboard (Dashboardv5.py): level detector, fetcher, chart composer, grid

    A shallow embedding of [src/Dashboardv5.py].  The script is a Streamlit
    page: a cached fetcher ([get_stock_data]), a support/resistance detector
    ([find_support_resistance]), a chart builder ([plot_candlestick]) and the
    top-level script that lays the charts out in three columns.

    Conventions of the embedding.
    - A price cell is a [float64] that is either a finite value or NaN.  The
      code never does arithmetic on prices except for the rolling mean; the
      detector only compares them.  Finite values are modelled by [Z] (their
      order is all that matters) and NaN by [None]; every comparison with NaN
      is false, as in IEEE 754.
    - Python exceptions are explicit: a computation returns [Ok v] or
      [Raise e].
    - Library calls ([numpy.take], [scipy.signal.argrelextrema],
      [DataFrame.dropna], [Series.rolling(..).mean()], [st.cache_data]) are
      not part of the repository; each is embedded from the library's own
      implementation or reference documentation, and says so. *)

From Stdlib Require Import ZArith QArith Lia.
From stdpp Require Import base option list sorting strings pretty gmap.

Local Open Scope Z_scope.

(** ** Exceptions and results *)

Inductive exn :=
  | ValueError (msg : string)
  | KeyError (key : string)
  | ProviderError (msg : string).

Inductive result (A : Type) :=
  | Ok (a : A)
  | Raise (e : exn).
Arguments Ok {A} a.
Arguments Raise {A} e.

#[global] Instance result_ret : MRet result := fun _ a => Ok a.
#[global] Instance result_bind : MBind result := fun _ _ k r =>
  match r with
  | Ok a => k a
  | Raise e => Raise e
  end.

(** ** Floats with NaN *)

Definition float64 := option Z.
Definition NaN : float64 := None.

(** [x > y] and [x < y] on floats: false as soon as one side is NaN. *)
Definition float_gt (x y : float64) : bool :=
  match x, y with
  | Some a, Some b => b <? a
  | _, _ => false
  end.

Definition float_lt (x y : float64) : bool :=
  match x, y with
  | Some a, Some b => a <? b
  | _, _ => false
  end.

(** ** Python built-ins used by the detector *)

Module Py.

(** [l[:n]]: the first [n] items; a negative [n] counts from the end. *)
Definition slice_to {A} (l : list A) (n : Z) : list A :=
  if 0 <=? n then take (Z.to_nat n) l
  else take (length l - Z.to_nat (- n)) l.

(** [set(l)]: the distinct values, in no particular order. *)
Definition set_ (l : list Z) : gset Z := list_to_set l.

(** [list(s)]: the members of a set, each once, in the set's own order. *)
Definition list_ (s : gset Z) : list Z := elements s.

Definition ge_rel : relation Z := fun x y => y <= x.
#[global] Instance ge_rel_dec : RelDecision ge_rel := fun x y => decide (y <= x).

(** [sorted(l)] and [sorted(l, reverse=True)]: a stable merge sort; on
    integers the result is the only sorted arrangement of [l]. *)
Definition sorted (l : list Z) (reverse : bool) : list Z :=
  if reverse then merge_sort ge_rel l else merge_sort Z.le l.

End Py.

(** ** numpy *)

Module Np.

(** [numpy.clip] of an index into [0, n-1]. *)
Definition clip_index (n : nat) (i : Z) : Z :=
  Z.max 0 (Z.min i (Z.of_nat n - 1)).

(** [data.take(idx, mode='clip')]: an index below 0 reads the first item,
    an index past the end reads the last one. *)
Definition take_clip (data : list float64) (idx : list Z) : list float64 :=
  map (fun i => default NaN (data !! Z.to_nat (clip_index (length data) i))) idx.

(** [numpy.arange(0, n)]. *)
Definition arange (n : nat) : list Z := map Z.of_nat (seq 0 n).

(** [numpy.nonzero(bs)[0]] for a one-dimensional boolean array. *)
Fixpoint nonzero_from (i : nat) (bs : list bool) : list nat :=
  match bs with
  | [] => []
  | b :: bs' => if b then i :: nonzero_from (S i) bs' else nonzero_from (S i) bs'
  end.
Definition nonzero (bs : list bool) : list nat := nonzero_from 0 bs.

(** [a & b] on boolean arrays of one length. *)
Definition band (a b : list bool) : list bool := zip_with andb a b.

(** [a.any()]. *)
Definition any (a : list bool) : bool := existsb id a.

(** [prices[indices]]: fancy indexing with in-range indices. *)
Definition index_with (data : list float64) (idx : list nat) : list float64 :=
  map (fun i => default NaN (data !! i)) idx.

End Np.

(** ** scipy.signal.argrelextrema

    Embedded from [scipy/signal/_peak_finding.py] ([_boolrelextrema], with
    the defaults [axis=0], [mode='clip'] that the detector relies on):
<<
    if (int(order) != order) or (order < 1):
        raise ValueError('Order must be an int >= 1')
    datalen = data.shape[axis]
    locs = np.arange(0, datalen)
    results = np.ones(data.shape, dtype=bool)
    main = data.take(locs, axis=axis, mode=mode)
    for shift in range(1, order + 1):
        plus = data.take(locs + shift, axis=axis, mode=mode)
        minus = data.take(locs - shift, axis=axis, mode=mode)
        results &= comparator(main, plus)
        results &= comparator(main, minus)
        if ~results.any():
            return results
    return results
>>
    and [argrelextrema] returns [np.nonzero(results)]. *)

Module Scipy.

Definition comparator := float64 -> float64 -> bool.

(** The body of the [for shift] loop, [todo] iterations from [shift] on. *)
Fixpoint shift_loop (cmp : comparator) (data : list float64) (locs : list Z)
    (shift : Z) (todo : nat) (results : list bool) : list bool :=
  match todo with
  | O => results
  | S todo' =>
      let main := Np.take_clip data locs in
      let plus := Np.take_clip data (map (fun l => l + shift) locs) in
      let minus := Np.take_clip data (map (fun l => l - shift) locs) in
      let results := Np.band results (zip_with cmp main plus) in
      let results := Np.band results (zip_with cmp main minus) in
      if negb (Np.any results) then results
      else shift_loop cmp data locs (shift + 1) todo' results
  end.

Definition boolrelextrema (data : list float64) (cmp : comparator) (order : Z)
    : result (list bool) :=
  if order <? 1 then Raise (ValueError "Order must be an int >= 1")
  else
    let datalen := length data in
    let locs := Np.arange datalen in
    let results := replicate datalen true in
    Ok (shift_loop cmp data locs 1 (Z.to_nat order) results).

Definition argrelextrema (data : list float64) (cmp : comparator) (order : Z)
    : result (list nat) :=
  results ← boolrelextrema data cmp order;
  Ok (Np.nonzero results).

End Scipy.

(** ** Data frames

    A frame is a list of column labels and a list of rows, each row a date
    (an ordinal day) and one cell per column.  [L] is the label type: a
    string for a flat [Index], a pair (field, ticker) for the [MultiIndex]
    that a multi-ticker download carries. *)

Record DataFrame (L : Type) := mkDF {
  df_columns : list L;
  df_rows : list (Z * list float64)
}.
Arguments mkDF {L} _ _.
Arguments df_columns {L} _.
Arguments df_rows {L} _.

Module Pd.
Section Frames.
Context {L : Type} `{EqDecision L}.

(** [pd.DataFrame()]. *)
Definition empty_frame : DataFrame L := mkDF [] [].

(** [df.empty]: no column or no row. *)
Definition empty (df : DataFrame L) : bool :=
  match df_columns df, df_rows df with
  | [], _ => true
  | _, [] => true
  | _, _ => false
  end.

(** [label in df.columns]. *)
Definition has_column (df : DataFrame L) (label : L) : bool :=
  bool_decide (label ∈ df_columns df).

(** Position of the first column that carries [label]. *)
Fixpoint position (label : L) (cols : list L) : option nat :=
  match cols with
  | [] => None
  | c :: cols' =>
      if decide (c = label) then Some O else S <$> position label cols'
  end.

(** [df[label].values]; [show] renders the label for the [KeyError]. *)
Definition column_values (show : L -> string) (df : DataFrame L) (label : L)
    : result (list float64) :=
  match position label (df_columns df) with
  | None => Raise (KeyError (show label))
  | Some j => Ok (map (fun r => default NaN (snd r !! j)) (df_rows df))
  end.

(** [df.index]. *)
Definition index (df : DataFrame L) : list Z := map fst (df_rows df).

Definition complete_row (r : Z * list float64) : bool :=
  forallb (fun c : float64 => bool_decide (is_Some c)) (snd r).

(** [df.dropna()] with its defaults ([axis=0], [how='any']): a row is
    kept when none of its cells is missing. *)
Definition dropna (df : DataFrame L) : DataFrame L :=
  mkDF (df_columns df) (List.filter complete_row (df_rows df)).

End Frames.
End Pd.

(** ** The level detector (lines 33-61) *)

Definition close_label : string := "Close".

(** The finite values among the selected cells.  NaN is never selected, so
    nothing is lost here ([selected_cells_finite]). *)
Definition finite_values (cells : list float64) : list Z := omap id cells.

Definition find_support_resistance (df : DataFrame string) (window num_levels : Z)
    : result (list Z * list Z) :=
  if Pd.empty df || negb (Pd.has_column df close_label) then Ok ([], [])
  else
    prices ← Pd.column_values id df close_label;
    resistance_indices ← Scipy.argrelextrema prices float_gt window;
    let resistance_levels := finite_values (Np.index_with prices resistance_indices) in
    support_indices ← Scipy.argrelextrema prices float_lt window;
    let support_levels := finite_values (Np.index_with prices support_indices) in
    let resistance_levels := Py.sorted (Py.list_ (Py.set_ resistance_levels)) true in
    let support_levels := Py.sorted (Py.list_ (Py.set_ support_levels)) false in
    let resistance_levels := Py.slice_to resistance_levels num_levels in
    let support_levels := Py.slice_to support_levels num_levels in
    Ok (support_levels, resistance_levels).

(** A frame that holds just a closing-price series, one row per day. *)
Definition close_frame (closes : list Z) : DataFrame string :=
  mkDF [close_label]
       (imap (fun i c => (Z.of_nat i, [Some c])) closes).

(** ** Series.rolling(window=w).mean()

    Embedded from the pandas reference: an integer [window] is a fixed
    number of observations, the window is trailing and closed on the right
    (the window of position [i] ends at [i] and starts at [max(0, i+1-w)]),
    [min_periods] defaults to the window size, NaN cells are not
    observations, and a window with fewer than [min_periods] observations
    (or none) yields NaN.  Which points are defined is exact.  The value
    of a defined point is idealised: it is kept as the rational
    [sum / count] of integer prices, where pandas computes a float64 mean
    that rounds; no property below states the value of a defined point. *)

Definition sum_values (l : list Z) : Z := foldr Z.add 0 l.

Definition mean (obs : list Z) : Q := Qmake (sum_values obs) (Pos.of_nat (length obs)).

Definition window_cells (w i : nat) (xs : list float64) : list float64 :=
  let start := (i + 1 - w)%nat in
  take (i + 1 - start) (drop start xs).

Definition rolling_mean (w : nat) (xs : list float64) : list (option Q) :=
  map (fun i =>
         let obs := finite_values (window_cells w i xs) in
         let nobs := length obs in
         if (w <=? nobs)%nat && (0 <? nobs)%nat then Some (mean obs) else None)
      (seq 0 (length xs)).

(** ** Charts and page elements *)

Inductive trace :=
  | Candlestick (x : list Z) (open high low close : list float64)
  | Scatter (x : list Z) (y : list (option Q)) (name : string).

Inductive level_kind := Support | Resistance.

(** [fig.add_hline(y=level, ...)]: the annotation text, position, dash and
    colour are fixed by the kind of the level. *)
Record hline := mkHLine { hl_kind : level_kind; hl_y : Z }.

Record Figure := mkFigure {
  fig_traces : list trace;
  fig_hlines : list hline;
  fig_title : string;
  fig_height : Z
}.

(** What a Streamlit call writes into the current container. *)
Inductive element :=
  | Info (msg : string)
  | Error (msg : string)
  | Warning (msg : string)
  | Markdown (msg : string)
  | Subheader (msg : string)
  | PlotlyChart (fig : Figure).

(** The frame a download returns: flat columns or (field, ticker) columns. *)
Inductive AnyFrame :=
  | FlatFrame (df : DataFrame string)
  | MultiFrame (df : DataFrame (string * string)).

Definition any_empty (data : AnyFrame) : bool :=
  match data with
  | FlatFrame df => Pd.empty df
  | MultiFrame df => Pd.empty df
  end.

Definition any_dropna (data : AnyFrame) : AnyFrame :=
  match data with
  | FlatFrame df => FlatFrame (Pd.dropna df)
  | MultiFrame df => MultiFrame (Pd.dropna df)
  end.

Definition any_rows (data : AnyFrame) : list (Z * list float64) :=
  match data with
  | FlatFrame df => df_rows df
  | MultiFrame df => df_rows df
  end.

(** ** The chart builder (lines 64-117) *)

(** Cells of a row under the columns marked [true]. *)
Definition mask_cells (keep : list bool) (cells : list float64) : list float64 :=
  map snd (List.filter fst (zip keep cells)).

(** [df.loc[:, (slice(None), ticker)]] followed by
    [columns.droplevel(1)]: the columns whose second level is [ticker],
    named by their first level; [KeyError] when there is none. *)
Definition select_ticker (df : DataFrame (string * string)) (ticker : string)
    : result (DataFrame string) :=
  let keep := map (fun l : string * string => bool_decide (snd l = ticker)) (df_columns df) in
  if Np.any keep then
    Ok (mkDF (map fst (List.filter (fun l : string * string => bool_decide (snd l = ticker))
                                   (df_columns df)))
             (map (fun r => (fst r, mask_cells keep (snd r))) (df_rows df)))
  else Raise (KeyError ticker).

(** Lines 67-71. *)
Definition plot_data_of (df : AnyFrame) (ticker : string) : result (DataFrame string) :=
  match df with
  | MultiFrame d => select_ticker d ticker
  | FlatFrame d => Ok d
  end.

(** Lines 73-80: the candlestick trace reads the four price columns in the
    order Open, High, Low, Close. *)
Definition candlestick_of (plot_data : DataFrame string) : result trace :=
  open ← Pd.column_values id plot_data "Open";
  high ← Pd.column_values id plot_data "High";
  low ← Pd.column_values id plot_data "Low";
  close ← Pd.column_values id plot_data close_label;
  Ok (Candlestick (Pd.index plot_data) open high low close).

(** Lines 83-91.  The code stores the moving average as a new column of
    [plot_data] and plots that column; the detector, called afterwards on
    [plot_data], reads [df.empty], the presence of "Close" and the "Close"
    column only, none of which the added column changes, so the overlay is
    kept in the trace alone. *)
Definition sma_traces (plot_data : DataFrame string) (show_sma : bool) (sma_period : nat)
    : result (list trace) :=
  if show_sma && Pd.has_column plot_data close_label then
    close ← Pd.column_values id plot_data close_label;
    Ok [Scatter (Pd.index plot_data) (rolling_mean sma_period close)
                ("SMA " +:+ pretty sma_period)]
  else Ok [].

(** [try: ... except KeyError: st.warning(...)]. *)
Definition except_KeyError (body : result element) (handler : element) : result element :=
  match body with
  | Raise (KeyError _) => Ok handler
  | r => r
  end.

Definition plot_candlestick (df : AnyFrame) (ticker : string)
    (height sr_window sr_num_levels : Z) (show_sma : bool) (sma_period : nat)
    : result element :=
  except_KeyError
    (plot_data ← plot_data_of df ticker;
     candles ← candlestick_of plot_data;
     overlay ← sma_traces plot_data show_sma sma_period;
     levels ← find_support_resistance plot_data sr_window sr_num_levels;
     let '(support_levels, resistance_levels) := levels in
     Ok (PlotlyChart
           (mkFigure (candles :: overlay)
                     (map (mkHLine Support) support_levels
                      ++ map (mkHLine Resistance) resistance_levels)
                     (ticker +:+ " Candlestick Chart")
                     height)))
    (Warning ("Required OHLC data is missing for **" +:+ ticker +:+ "** in this range.")).

(** ** The fetcher (lines 24-30) and its cache

    [Session] is what outlives one run of the script: the store behind
    [st.cache_data], and a log of the calls made so far.  Wall-clock time is
    in seconds.  [st.cache_data(ttl=3600)], from the Streamlit reference: a
    call whose arguments were seen less than [ttl] seconds ago returns the
    stored value without running the function; otherwise the function runs
    and its return value is stored; an exception is stored nowhere. *)

Definition Request : Type := list string * Z * Z.

Record Session := mkSession {
  cache : list (Request * (Z * AnyFrame));
  invocations : list Request;
  downloads : list Request
}.

Definition initial_session : Session := mkSession [] [] [].

Definition ttl : Z := 3600.

Fixpoint cache_get (now : Z) (req : Request) (c : list (Request * (Z * AnyFrame)))
    : option AnyFrame :=
  match c with
  | [] => None
  | (key, (stored, data)) :: c' =>
      if decide (key = req) then
        if now - stored <? ttl then Some data else None
      else cache_get now req c'
  end.

Definition cache_put (now : Z) (req : Request) (data : AnyFrame)
    (c : list (Request * (Z * AnyFrame))) : list (Request * (Z * AnyFrame)) :=
  (req, (now, data)) :: List.filter (fun e => negb (bool_decide (fst e = req))) c.

Section Provider.

(** [yf.download(tickers, start=.., end=..)] at a given time: the joined
    frame, or an exception. *)
Variable yf_download : Z -> Request -> result AnyFrame.

(** The function under the decorator. *)
Definition get_stock_data_body (now : Z) (req : Request) (s : Session)
    : result AnyFrame * Session :=
  match fst (fst req) with
  | [] => (Ok (FlatFrame Pd.empty_frame), s)
  | _ :: _ =>
      (data ← yf_download now req; Ok (any_dropna data),
       mkSession (cache s) (invocations s) (downloads s ++ [req]))
  end.

Definition get_stock_data (now : Z) (req : Request) (s : Session)
    : result AnyFrame * Session :=
  let s := mkSession (cache s) (invocations s ++ [req]) (downloads s) in
  match cache_get now req (cache s) with
  | Some data => (Ok data, s)
  | None =>
      let (r, s') := get_stock_data_body now req s in
      match r with
      | Ok data =>
          (Ok data,
           mkSession (cache_put now req data (cache s')) (invocations s') (downloads s'))
      | Raise e => (Raise e, s')
      end
  end.

(** The session after a history of earlier fetches, oldest first. *)
Definition session_after (history : list (Z * Request)) : Session :=
  foldl (fun s call => snd (get_stock_data (fst call) (snd call) s))
        initial_session history.

(** ** The script (lines 120-202) *)

Definition CHART_COLUMNS : nat := 3.

(** The values of the sidebar widgets.  The two sliders are only drawn
    when the S&R box is ticked. *)
Record Sidebar := mkSidebar {
  selected_tickers : list string;
  start_date : Z;
  end_date : Z;
  show_sma : bool;
  sma_period : nat;
  sr_enabled : bool;
  sr_window_slider : Z;
  sr_num_levels_slider : Z
}.

(** Lines 159-166. *)
Definition sr_window (sb : Sidebar) : Z :=
  if sr_enabled sb then sr_window_slider sb else 20.

Definition sr_num_levels (sb : Sidebar) : Z :=
  if sr_enabled sb then sr_num_levels_slider sb else 0.

(** One run of the script: what was written to the page, what was written
    into each of the [st.columns] containers, and the exception that ended
    the run, if one did. *)
Record Page := mkPage {
  page_body : list element;
  page_columns : list (list element);
  page_exception : option exn
}.

(** Line 194: [('Close', ticker) in data.columns or ticker in data.columns].
    On a [MultiIndex] a plain string is looked up in the first level; a
    flat index holds no tuple. *)
Definition has_ohlc (data : AnyFrame) (ticker : string) : bool :=
  match data with
  | MultiFrame df =>
      Pd.has_column df (close_label, ticker)
      || bool_decide (ticker ∈ map fst (df_columns df))
  | FlatFrame df => false || Pd.has_column df ticker
  end.

(** [with cols[c]: <write el>]. *)
Definition write_to (c : nat) (el : element) (cols : list (list element))
    : list (list element) :=
  alter (fun col => col ++ [el]) c cols.

(** What one ticker's cell shows below its subheader (lines 194-202). *)
Definition cell_content (sb : Sidebar) (data : AnyFrame) (ticker : string)
    : result element :=
  if has_ohlc data ticker then
    plot_candlestick data ticker 300
      (if sr_enabled sb then sr_window sb else 0)
      (if sr_enabled sb then sr_num_levels sb else 0)
      (show_sma sb) (sma_period sb)
  else Ok (Warning ("OHLC data not available for **" +:+ ticker +:+ "** in this range.")).

(** Lines 188-202: [for i, ticker in enumerate(selected_tickers)], from
    index [i] on.  An exception that nothing catches ends the run. *)
Fixpoint grid_loop (sb : Sidebar) (data : AnyFrame) (i : nat) (tickers : list string)
    (cols : list (list element)) : list (list element) * option exn :=
  match tickers with
  | [] => (cols, None)
  | ticker :: rest =>
      let current_col := (i mod CHART_COLUMNS)%nat in
      let cols := write_to current_col (Subheader ticker) cols in
      match cell_content sb data ticker with
      | Ok el => grid_loop sb data (S i) rest (write_to current_col el cols)
      | Raise e => (cols, Some e)
      end
  end.

Definition exn_message (e : exn) : string :=
  match e with
  | ValueError msg => msg
  | KeyError key => key
  | ProviderError msg => msg
  end.

Definition select_prompt : element :=
  Info "Please select at least one asset in the sidebar to begin plotting.".

Definition invalid_date_range : element :=
  Error "The Start Date must be before the End Date. Please adjust the dates in the sidebar.".

Definition main (sb : Sidebar) (now : Z) (s : Session) : Page * Session :=
  match selected_tickers sb with
  | [] => (mkPage [select_prompt] [] None, s)
  | _ :: _ =>
      if end_date sb <=? start_date sb then (mkPage [invalid_date_range] [] None, s)
      else
        let (r, s') :=
          get_stock_data now (selected_tickers sb, start_date sb, end_date sb) s in
        let (errors, data) :=
          match r with
          | Ok data => ([], data)
          | Raise e =>
              ([Error ("Error fetching data: " +:+ exn_message e
                       +:+ ". Check your selected dates and tickers.")],
               FlatFrame Pd.empty_frame)
          end in
        if any_empty data && bool_decide (selected_tickers sb ≠ []) then
          (mkPage (errors ++ [Warning "No data returned for the selected tickers/date range. Data might be missing or the market is closed."])
                  [] None, s')
        else if negb (any_empty data) then
          let (cols, e) :=
            grid_loop sb data 0 (selected_tickers sb) (replicate CHART_COLUMNS []) in
          (mkPage (errors ++ [Markdown ("**Viewing data from " +:+ pretty (start_date sb)
                                        +:+ " to " +:+ pretty (end_date sb) +:+ "**")])
                  cols e, s')
        else (mkPage errors [] None, s')
  end.

End Provider.

(** ** Notions used to state the properties *)

(** The point a comparison at index [i] reads: [i] clipped into the
    series. *)
Definition neighbour (data : list float64) (i : Z) : float64 :=
  default NaN (data !! Z.to_nat (Np.clip_index (length data) i)).

(** Index [i] is a local extremum of radius [order]: the point compares
    true with the points at every distance [1..order] on both sides, the
    first or the last point standing in beyond either end. *)
Definition local_extremum (cmp : Scipy.comparator) (data : list float64)
    (order : Z) (i : nat) : Prop :=
  (i < length data)%nat /\
  forall s, 1 <= s <= order ->
    cmp (neighbour data (Z.of_nat i)) (neighbour data (Z.of_nat i + s)) = true /\
    cmp (neighbour data (Z.of_nat i)) (neighbour data (Z.of_nat i - s)) = true.

(** What the detector's two comparators have in common: a strict
    comparison, false on NaN. *)
Definition strict (cmp : Scipy.comparator) : Prop :=
  (forall x, cmp x x = false) /\ (forall x y, cmp x y = true -> is_Some x).

(** The closing prices the detector works on ([[]] when it returns early). *)
Definition closes (df : DataFrame string) : list float64 :=
  match Pd.column_values id df close_label with
  | Ok c => c
  | Raise _ => []
  end.

(** [v] is the price of a local extremum of the closing prices. *)
Definition extremum_price (cmp : Scipy.comparator) (df : DataFrame string)
    (window : Z) (v : Z) : Prop :=
  exists i, local_extremum cmp (closes df) window i /\ closes df !! i = Some (Some v).

(** What one ticker leaves in its column: its subheader and, unless the run
    ended there, the content of its cell. *)
Definition cell_elements (sb : Sidebar) (data : AnyFrame) (ticker : string)
    : list element :=
  match cell_content sb data ticker with
  | Ok el => [Subheader ticker; el]
  | Raise _ => [Subheader ticker]
  end.

(** The tickers that fall in column [c] when the first of them has index
    [i] in the selection. *)
Fixpoint column_tickers (c i : nat) (tickers : list string) : list string :=
  match tickers with
  | [] => []
  | t :: rest =>
      if decide ((i mod CHART_COLUMNS)%nat = c) then t :: column_tickers c (S i) rest
      else column_tickers c (S i) rest
  end.

(** A computation that fails, if at all, with a [KeyError]. *)
Definition key_error_only {A} (r : result A) : Prop :=
  match r with
  | Ok _ => True
  | Raise (KeyError _) => True
  | Raise _ => False
  end.

(** Every cell of a row is present. *)
Definition complete (row : Z * list float64) : Prop := Forall is_Some (snd row).

(** [data] is what the undecorated fetcher returns for [req] at some time:
    the empty frame for an empty ticker list, otherwise the provider's
    joined frame with its incomplete rows dropped. *)
Definition fetched (yf_download : Z -> Request -> result AnyFrame)
    (req : Request) (data : AnyFrame) : Prop :=
  match fst (fst req) with
  | [] => data = FlatFrame Pd.empty_frame
  | _ :: _ => exists t joined, yf_download t req = Ok joined /\ data = any_dropna joined
  end.

(** Every value in the cache came out of the fetcher. *)
Definition cache_sound (yf_download : Z -> Request -> result AnyFrame)
    (s : Session) : Prop :=
  forall key stored data, (key, (stored, data)) ∈ cache s -> fetched yf_download key data.

(** A provider that is down, and one that answers every request with the
    same joined frame of two tickers over five days, in which MSFT misses
    its close on day 2. *)
Definition offline_provider : Z -> Request -> result AnyFrame :=
  fun _ _ => Raise (ProviderError "no route to host").

Definition sample_joined : AnyFrame :=
  MultiFrame
    (mkDF [("Close", "AAPL"); ("Close", "MSFT"); ("High", "AAPL"); ("High", "MSFT");
           ("Low", "AAPL"); ("Low", "MSFT"); ("Open", "AAPL"); ("Open", "MSFT")]
          [(1, [Some 11; Some 21; Some 12; Some 22; Some 9; Some 19; Some 10; Some 20]);
           (2, [Some 14; NaN; Some 15; Some 25; Some 10; Some 20; Some 11; Some 21]);
           (3, [Some 15; Some 25; Some 16; Some 26; Some 13; Some 23; Some 14; Some 24]);
           (4, [Some 13; Some 23; Some 15; Some 25; Some 12; Some 22; Some 15; Some 25]);
           (5, [Some 17; Some 27; Some 18; Some 28; Some 12; Some 22; Some 13; Some 23])]).

Definition sample_provider : Z -> Request -> result AnyFrame :=
  fun _ _ => Ok sample_joined.

(** Sidebar states: nothing selected and the two dates equal; three
    tickers over a valid range with the S&R box unticked. *)
Definition sidebar_no_selection : Sidebar :=
  mkSidebar [] 5 5 false 20 true 20 3.

Definition sidebar_sr_off : Sidebar :=
  mkSidebar ["AAPL"; "MSFT"] 1 4 false 20 false 20 3.

Definition sidebar_bad_dates : Sidebar :=
  mkSidebar ["AAPL"] 9 4 false 20 true 20 3.

Definition sidebar_sr_on : Sidebar :=
  mkSidebar ["AAPL"; "MSFT"; "GOOGL"; "AMZN"] 1 4 true 2 true 5 3.

(** A short series with one interior peak and one interior trough. *)
Definition sample_dip : DataFrame string := close_frame [9; 1; 5; 2; 0].

(** ** Further constants of the script and notions for further properties *)

(** Lines 16-20. *)
Definition DEFAULT_TICKERS : list string :=
  ["AAPL"; "MSFT"; "GOOGL"; "AMZN"; "TSLA"; "NVDA"; "JPM"; "V"; "SPY"; "QQQ"].

Definition MAX_SELECTIONS : nat := 9.

(** The tickers whose subheaders a column holds, top to bottom. *)
Definition subheaders (col : list element) : list string :=
  omap (fun el => match el with Subheader t => Some t | _ => None end) col.

(** A series in which no point is lower than the one before it, and one in
    which no point is higher than the one before it. *)
Definition never_falls (cells : list float64) : Prop :=
  forall i x y, cells !! i = Some x -> cells !! S i = Some y -> float_gt x y = false.

Definition never_rises (cells : list float64) : Prop :=
  forall i x y, cells !! i = Some x -> cells !! S i = Some y -> float_lt x y = false.

(** Every row has one cell per column. *)
Definition well_formed {L} (df : DataFrame L) : Prop :=
  Forall (fun r : Z * list float64 => length (snd r) = length (df_columns df)) (df_rows df).

(** The closes of [sample_dip] beside an opening price and a volume. *)
Definition sample_dip_wide : DataFrame string :=
  mkDF ["Open"; close_label; "Volume"]
       [(0, [Some 8; Some 9; Some 100]);
        (1, [Some 9; Some 1; Some 120]);
        (2, [Some 2; Some 5; NaN]);
        (3, [Some 5; Some 2; Some 90]);
        (4, [Some 2; Some 0; Some 70])].

(** * Properties *)

(** ** The extremum loop *)

Section ShiftLoop.
Variable cmp : Scipy.comparator.
Variable data : list float64.

Lemma take_clip_lookup (f : Z -> Z) (i : nat) :
  (i < length data)%nat ->
  Np.take_clip data (map f (Np.arange (length data))) !! i
  = Some (neighbour data (f (Z.of_nat i))).
Proof.
  intros Hi. unfold Np.take_clip, Np.arange, neighbour.
  rewrite !list_lookup_fmap, lookup_seq_lt by done. reflexivity.
Qed.

Lemma take_clip_main_lookup (i : nat) :
  (i < length data)%nat ->
  Np.take_clip data (Np.arange (length data)) !! i
  = Some (neighbour data (Z.of_nat i)).
Proof.
  intros Hi. pose proof (take_clip_lookup (fun z => z) i Hi) as H.
  rewrite map_id in H. exact H.
Qed.

(** One pass of the loop body clears exactly the flags of the points that
    fail one of the two comparisons at this distance. *)
Lemma loop_body_lookup (shift : Z) (results : list bool) (i : nat) :
  length results = length data ->
  let locs := Np.arange (length data) in
  let main := Np.take_clip data locs in
  let plus := Np.take_clip data (map (fun l => l + shift) locs) in
  let minus := Np.take_clip data (map (fun l => l - shift) locs) in
  Np.band (Np.band results (zip_with cmp main plus)) (zip_with cmp main minus) !! i
  = Some true
  <-> results !! i = Some true /\
      cmp (neighbour data (Z.of_nat i)) (neighbour data (Z.of_nat i + shift)) = true /\
      cmp (neighbour data (Z.of_nat i)) (neighbour data (Z.of_nat i - shift)) = true.
Proof.
  intros Hlen locs main plus minus. unfold Np.band.
  destruct (decide (i < length data)%nat) as [Hi|Hi].
  - subst main plus minus locs.
    rewrite !lookup_zip_with.
    rewrite take_clip_main_lookup, !take_clip_lookup by done.
    destruct (results !! i) as [b|] eqn:Hb; simpl.
    + destruct b; simpl;
        destruct (cmp _ (neighbour data (Z.of_nat i + shift)));
        destruct (cmp _ (neighbour data (Z.of_nat i - shift)));
        simpl; intuition congruence.
    + intuition congruence.
  - rewrite !lookup_zip_with.
    rewrite (lookup_ge_None_2 results) by lia. simpl. intuition congruence.
Qed.

Lemma any_false_lookup (bs : list bool) (i : nat) :
  Np.any bs = false -> bs !! i <> Some true.
Proof.
  unfold Np.any. intros Hany Hi.
  assert (existsb id bs = true) as Ht; [|congruence].
  apply existsb_exists. exists true. split; [|done].
  apply list_elem_of_In. eapply list_elem_of_lookup_2; eauto.
Qed.

Lemma shift_loop_lookup (todo : nat) : forall (shift : Z) (results : list bool) (i : nat),
  length results = length data ->
  Scipy.shift_loop cmp data (Np.arange (length data)) shift todo results !! i = Some true
  <-> results !! i = Some true /\
      forall s, shift <= s < shift + Z.of_nat todo ->
        cmp (neighbour data (Z.of_nat i)) (neighbour data (Z.of_nat i + s)) = true /\
        cmp (neighbour data (Z.of_nat i)) (neighbour data (Z.of_nat i - s)) = true.
Proof.
  induction todo as [|todo IH]; intros shift results i Hlen; simpl.
  - split; [intros H; split; [done | intros s Hs; lia] | tauto].
  - pose proof (loop_body_lookup shift results i Hlen) as Hbody. simpl in Hbody.
    set (results' := Np.band (Np.band results _) _) in *.
    assert (length results' = length data) as Hlen'.
    { subst results'. unfold Np.band, Np.take_clip, Np.arange.
      rewrite !length_zip_with, !length_map, length_seq. lia. }
    destruct (Np.any results') eqn:Hany; simpl.
    + rewrite (IH (shift + 1) results' i Hlen'), Hbody. split.
      * intros [(Hr & Hp & Hm) Hrest]. split; [done|].
        intros s Hs. destruct (decide (s = shift)) as [->|]; [done|].
        apply Hrest. lia.
      * intros [Hr Hall]. split.
        -- split; [done|]. apply Hall. lia.
        -- intros s Hs. apply Hall. lia.
    + split.
      * intros H. exfalso. by eapply any_false_lookup.
      * intros [Hr Hall]. exfalso. eapply (any_false_lookup results'); [done|].
        apply Hbody. split; [done|]. apply Hall. lia.
Qed.

Lemma nonzero_from_elem (bs : list bool) : forall (k i : nat),
  i ∈ Np.nonzero_from k bs <-> (k <= i)%nat /\ bs !! (i - k)%nat = Some true.
Proof.
  induction bs as [|b bs IH]; intros k i; simpl.
  - rewrite elem_of_nil, lookup_nil. intuition congruence.
  - destruct b.
    + rewrite elem_of_cons, IH. split.
      * intros [->|[Hk Hi]].
        -- split; [lia|]. by replace (k - k)%nat with 0%nat by lia.
        -- split; [lia|]. replace (i - k)%nat with (S (i - S k)) by lia. done.
      * intros [Hk Hi]. destruct (decide (i = k)) as [->|Hne]; [by left|right].
        split; [lia|]. replace (i - k)%nat with (S (i - S k)) in Hi by lia. done.
    + rewrite IH. split.
      * intros [Hk Hi]. split; [lia|].
        replace (i - k)%nat with (S (i - S k)) by lia. done.
      * intros [Hk Hi]. destruct (decide (i = k)) as [->|Hne].
        -- replace (k - k)%nat with 0%nat in Hi by lia. done.
        -- split; [lia|]. replace (i - k)%nat with (S (i - S k)) in Hi by lia. done.
Qed.

(** [argrelextrema] returns exactly the local extrema, for every order it
    accepts, and rejects the others. *)
Lemma argrelextrema_spec (order : Z) :
  1 <= order ->
  exists idx, Scipy.argrelextrema data cmp order = Ok idx /\
    forall i, i ∈ idx <-> local_extremum cmp data order i.
Proof.
  intros Horder. unfold Scipy.argrelextrema, Scipy.boolrelextrema.
  destruct (order <? 1) eqn:Hlt; [lia|]. simpl.
  eexists. split; [reflexivity|]. intros i.
  unfold Np.nonzero. rewrite nonzero_from_elem.
  replace (i - 0)%nat with i by lia.
  rewrite shift_loop_lookup by apply length_replicate.
  unfold local_extremum. split.
  - intros (_ & Hr & Hall). apply lookup_replicate in Hr as [_ Hi].
    split; [done|]. intros s Hs. apply Hall. lia.
  - intros [Hi Hall]. split; [lia|]. split.
    + by apply lookup_replicate_2.
    + intros s Hs. apply Hall. lia.
Qed.

Lemma argrelextrema_rejects (order : Z) :
  order < 1 ->
  Scipy.argrelextrema data cmp order = Raise (ValueError "Order must be an int >= 1").
Proof.
  intros Horder. unfold Scipy.argrelextrema, Scipy.boolrelextrema.
  destruct (order <? 1) eqn:Hlt; [reflexivity|lia].
Qed.

End ShiftLoop.

(** ** Strict comparisons and NaN *)

Lemma float_gt_finite (x y : float64) : float_gt x y = true -> is_Some x.
Proof. destruct x, y; simpl; intros; eauto; discriminate. Qed.

Lemma float_lt_finite (x y : float64) : float_lt x y = true -> is_Some x.
Proof. destruct x, y; simpl; intros; eauto; discriminate. Qed.

Lemma float_gt_irrefl (x : float64) : float_gt x x = false.
Proof. destruct x; simpl; [apply Z.ltb_irrefl | reflexivity]. Qed.

Lemma float_lt_irrefl (x : float64) : float_lt x x = false.
Proof. destruct x; simpl; [apply Z.ltb_irrefl | reflexivity]. Qed.

Lemma strict_gt : strict float_gt.
Proof. split; [apply float_gt_irrefl | apply float_gt_finite]. Qed.

Lemma strict_lt : strict float_lt.
Proof. split; [apply float_lt_irrefl | apply float_lt_finite]. Qed.

Lemma neighbour_in_range (data : list float64) (i : nat) :
  (i < length data)%nat -> data !! i = Some (neighbour data (Z.of_nat i)).
Proof.
  intros Hi. unfold neighbour, Np.clip_index.
  replace (Z.to_nat _) with i by lia.
  destruct (lookup_lt_is_Some_2 data i Hi) as [x ->]. reflexivity.
Qed.

Lemma neighbour_before_first (data : list float64) (s : Z) :
  0 <= s -> neighbour data (0 - s) = neighbour data 0.
Proof.
  intros Hs. unfold neighbour, Np.clip_index. f_equal. f_equal. lia.
Qed.

Lemma neighbour_after_last (data : list float64) (s : Z) :
  0 <= s ->
  neighbour data (Z.of_nat (length data - 1) + s)
  = neighbour data (Z.of_nat (length data - 1)).
Proof.
  intros Hs. unfold neighbour, Np.clip_index. f_equal. f_equal. lia.
Qed.

(** A local extremum is a finite value ... *)
Lemma extremum_is_finite cmp data order i :
  strict cmp -> 1 <= order -> local_extremum cmp data order i ->
  exists v, data !! i = Some (Some v).
Proof.
  intros [_ Hfin] Horder [Hi Hall].
  destruct (Hall 1 ltac:(lia)) as [Hp _]. apply Hfin in Hp as [v Hv].
  exists v. rewrite neighbour_in_range by done. by rewrite Hv.
Qed.

(** ... and is neither the first nor the last point of the series. *)
Lemma extremum_is_interior cmp data order i :
  strict cmp -> 1 <= order -> local_extremum cmp data order i ->
  (0 < i < length data - 1)%nat.
Proof.
  intros [Hirr _] Horder [Hi Hall].
  destruct (Hall 1 ltac:(lia)) as [Hp Hm].
  destruct (decide (i = 0%nat)) as [->|Hne0].
  { change (Z.of_nat 0) with 0 in Hm.
    rewrite neighbour_before_first, Hirr in Hm by lia. discriminate. }
  destruct (decide (i = (length data - 1)%nat)) as [->|HneN].
  { rewrite neighbour_after_last, Hirr in Hp by lia. discriminate. }
  lia.
Qed.

(** ** Selected values, sets and sorting *)

Lemma finite_values_elem (cells : list float64) (v : Z) :
  v ∈ finite_values cells <-> Some v ∈ cells.
Proof.
  unfold finite_values. rewrite list_elem_of_omap. split.
  - intros (x & Hx & Hid). simpl in Hid. by subst.
  - intros H. by exists (Some v).
Qed.

Lemma index_with_elem (data : list float64) (idx : list nat) (c : float64) :
  Forall (fun i => (i < length data)%nat) idx ->
  c ∈ Np.index_with data idx <-> exists i, i ∈ idx /\ data !! i = Some c.
Proof.
  intros Hidx. unfold Np.index_with. rewrite list_elem_of_fmap. split.
  - intros (i & -> & Hi). exists i. split; [done|].
    rewrite Forall_forall in Hidx.
    destruct (lookup_lt_is_Some_2 data i (Hidx i Hi)) as [x ->]. done.
  - intros (i & Hi & Hc). exists i. by rewrite Hc.
Qed.

Lemma strictly_ascending (l : list Z) :
  StronglySorted Z.le l -> NoDup l -> StronglySorted Z.lt l.
Proof.
  induction 1 as [|x l Hs IH Hall]; intros Hnd; [constructor|].
  apply NoDup_cons in Hnd as [Hx Hnd]. constructor; [by apply IH|].
  rewrite Forall_forall in Hall |- *. intros y Hy.
  assert (x <> y) by (intros ->; done). specialize (Hall y Hy). simpl in Hall. lia.
Qed.

Lemma strictly_descending (l : list Z) :
  StronglySorted Py.ge_rel l -> NoDup l -> StronglySorted Z.gt l.
Proof.
  induction 1 as [|x l Hs IH Hall]; intros Hnd; [constructor|].
  apply NoDup_cons in Hnd as [Hx Hnd]. constructor; [by apply IH|].
  rewrite Forall_forall in Hall |- *. intros y Hy.
  assert (x <> y) by (intros ->; done). specialize (Hall y Hy).
  unfold Py.ge_rel in Hall. lia.
Qed.

#[local] Instance ge_rel_trans : Transitive Py.ge_rel.
Proof. unfold Py.ge_rel. intros x y z. lia. Qed.

#[local] Instance ge_rel_total : Total Py.ge_rel.
Proof. unfold Py.ge_rel. intros x y. lia. Qed.

(** [sorted(list(set(l)))]: the distinct values of [l], strictly ascending. *)
Lemma sorted_set_ascending (l : list Z) :
  let r := Py.sorted (Py.list_ (Py.set_ l)) false in
  StronglySorted Z.lt r /\ forall v, v ∈ r <-> v ∈ l.
Proof.
  simpl. unfold Py.sorted, Py.list_, Py.set_. split.
  - apply strictly_ascending.
    + apply StronglySorted_merge_sort; apply _.
    + rewrite merge_sort_Permutation. apply NoDup_elements.
  - intros v. rewrite merge_sort_Permutation, elem_of_elements, elem_of_list_to_set.
    done.
Qed.

(** [sorted(list(set(l)), reverse=True)]: the same, strictly descending. *)
Lemma sorted_set_descending (l : list Z) :
  let r := Py.sorted (Py.list_ (Py.set_ l)) true in
  StronglySorted Z.gt r /\ forall v, v ∈ r <-> v ∈ l.
Proof.
  simpl. unfold Py.sorted, Py.list_, Py.set_. split.
  - apply strictly_descending.
    + apply StronglySorted_merge_sort; apply _.
    + rewrite merge_sort_Permutation. apply NoDup_elements.
  - intros v. rewrite merge_sort_Permutation, elem_of_elements, elem_of_list_to_set.
    done.
Qed.

Lemma slice_to_take {A} (l : list A) (n : Z) :
  0 <= n -> Py.slice_to l n = take (Z.to_nat n) l.
Proof. intros Hn. unfold Py.slice_to. destruct (0 <=? n) eqn:H; [done|lia]. Qed.

Lemma StronglySorted_take {A} (R : relation A) (n : nat) (l : list A) :
  StronglySorted R l -> StronglySorted R (take n l).
Proof.
  intros Hs. rewrite <- (take_drop n l) in Hs.
  by apply StronglySorted_app_1_l in Hs.
Qed.

Lemma StronglySorted_lt_NoDup (l : list Z) : StronglySorted Z.lt l -> NoDup l.
Proof.
  induction 1 as [|x l Hs IH Hall]; constructor; [|done].
  intros Hx. rewrite Forall_forall in Hall. specialize (Hall x Hx). lia.
Qed.

Lemma StronglySorted_gt_NoDup (l : list Z) : StronglySorted Z.gt l -> NoDup l.
Proof.
  induction 1 as [|x l Hs IH Hall]; constructor; [|done].
  intros Hx. rewrite Forall_forall in Hall. specialize (Hall x Hx). lia.
Qed.

(** ** The level detector *)

Lemma position_None {L} `{EqDecision L} (label : L) (cols : list L) :
  label ∉ cols -> Pd.position label cols = None.
Proof.
  induction cols as [|c cols IH]; simpl; [done|].
  rewrite not_elem_of_cons. intros [Hne Hnot].
  destruct (decide (c = label)); [congruence|]. by rewrite IH.
Qed.

Lemma position_Some {L} `{EqDecision L} (label : L) (cols : list L) :
  label ∈ cols -> is_Some (Pd.position label cols).
Proof.
  induction cols as [|c cols IH]; simpl.
  - by rewrite elem_of_nil.
  - rewrite elem_of_cons. intros Hin.
    destruct (decide (c = label)); [eauto|].
    destruct IH as [j ->]; [by destruct Hin|]. simpl. eauto.
Qed.

(** The detector's early return happens on a frame without closing prices. *)
Lemma early_return_closes (df : DataFrame string) :
  Pd.empty df || negb (Pd.has_column df close_label) = true -> closes df = [].
Proof.
  unfold closes, Pd.column_values, Pd.empty, Pd.has_column.
  destruct df as [cols rows]; simpl. intros H.
  destruct (Pd.position close_label cols) as [j|] eqn:Hpos; [|done].
  destruct cols as [|c cols]; [done|].
  destruct rows as [|r rows]; [done|]. simpl in H.
  apply negb_true_iff, bool_decide_eq_false in H.
  apply position_None in H. congruence.
Qed.

Lemma proceeds_closes (df : DataFrame string) :
  Pd.empty df || negb (Pd.has_column df close_label) = false ->
  Pd.column_values id df close_label = Ok (closes df).
Proof.
  unfold closes, Pd.column_values. intros H.
  apply orb_false_iff in H as [_ H].
  apply negb_false_iff, bool_decide_eq_true in H.
  apply position_Some in H as [j ->]. reflexivity.
Qed.

Lemma closes_length (df : DataFrame string) :
  (length (closes df) <= length (df_rows df))%nat.
Proof.
  unfold closes, Pd.column_values.
  destruct (Pd.position _ _); simpl; [rewrite length_map|]; lia.
Qed.

Lemma no_extremum_nil cmp order i : ~ local_extremum cmp [] order i.
Proof. intros [Hi _]. simpl in Hi. lia. Qed.

(** The values selected by one comparator are the prices of its extrema. *)
Lemma selected_values cmp (prices : list float64) (window : Z) (idx : list nat) :
  strict cmp -> 1 <= window ->
  (forall i, i ∈ idx <-> local_extremum cmp prices window i) ->
  forall v, v ∈ finite_values (Np.index_with prices idx)
    <-> exists i, local_extremum cmp prices window i /\ prices !! i = Some (Some v).
Proof.
  intros Hstrict Hw Hidx v.
  rewrite finite_values_elem, index_with_elem.
  - split; intros (i & Hi & Hv); exists i; split; try done; by apply Hidx.
  - apply Forall_forall. intros i Hi. apply Hidx in Hi as [Hlt _]. done.
Qed.

(** For a window the library accepts, the detector returns the first
    [num_levels] of two lists: the prices of the local minima in strictly
    ascending order and the prices of the local maxima in strictly
    descending order. *)
Lemma detector_levels (df : DataFrame string) (window num_levels : Z) :
  1 <= window ->
  exists all_support all_resistance,
    find_support_resistance df window num_levels
    = Ok (Py.slice_to all_support num_levels, Py.slice_to all_resistance num_levels) /\
    StronglySorted Z.lt all_support /\
    StronglySorted Z.gt all_resistance /\
    (forall v, v ∈ all_support <-> extremum_price float_lt df window v) /\
    (forall v, v ∈ all_resistance <-> extremum_price float_gt df window v).
Proof.
  intros Hw. unfold find_support_resistance.
  destruct (Pd.empty df || negb (Pd.has_column df close_label)) eqn:Hearly.
  - exists [], []. unfold Py.slice_to. rewrite !take_nil.
    destruct (0 <=? num_levels).
    all: split; [done|]; split; [constructor|]; split; [constructor|].
    all: unfold extremum_price; rewrite (early_return_closes df Hearly).
    all: split; intros v; rewrite elem_of_nil; (split; [done|]);
      intros (i & Hi & _); by apply no_extremum_nil in Hi.
  - rewrite (proceeds_closes df Hearly). simpl.
    destruct (argrelextrema_spec float_gt (closes df) window Hw) as (ri & -> & Hri).
    destruct (argrelextrema_spec float_lt (closes df) window Hw) as (si & -> & Hsi).
    simpl.
    pose proof (sorted_set_ascending (finite_values (Np.index_with (closes df) si)))
      as [Hs_sorted Hs_elem].
    pose proof (sorted_set_descending (finite_values (Np.index_with (closes df) ri)))
      as [Hr_sorted Hr_elem].
    eexists _, _. split; [reflexivity|].
    split; [done|]. split; [done|].
    unfold extremum_price. split; intros v.
    + rewrite Hs_elem. apply selected_values; auto using strict_lt.
    + rewrite Hr_elem. apply selected_values; auto using strict_gt.
Qed.

(** For a window below 1 the detector raises on every frame that has
    closing prices to look at. *)
Lemma detector_rejects (df : DataFrame string) (window num_levels : Z) :
  window < 1 ->
  Pd.empty df || negb (Pd.has_column df close_label) = false ->
  find_support_resistance df window num_levels
  = Raise (ValueError "Order must be an int >= 1").
Proof.
  intros Hw Hgo. unfold find_support_resistance.
  rewrite Hgo, (proceeds_closes df Hgo). simpl.
  rewrite (argrelextrema_rejects float_gt (closes df) window Hw). reflexivity.
Qed.

Lemma slice_to_subset {A} (l : list A) (n : Z) (x : A) :
  x ∈ Py.slice_to l n -> x ∈ l.
Proof.
  unfold Py.slice_to. destruct (0 <=? n); intros H;
    apply list_elem_of_lookup in H as [i Hi];
    apply lookup_take_Some in Hi as [Hi _];
    by eapply list_elem_of_lookup_2.
Qed.

Lemma extremum_price_interior cmp df window v :
  strict cmp -> 1 <= window -> extremum_price cmp df window v ->
  exists i, (0 < i < length (closes df) - 1)%nat /\ closes df !! i = Some (Some v).
Proof.
  intros Hs Hw (i & Hext & Hv). exists i. split; [|done].
  by eapply extremum_is_interior.
Qed.

Lemma no_elements_nil {A} (l : list A) : (forall x, x ∉ l) -> l = [].
Proof.
  destruct l as [|x l]; [done|]. intros H. exfalso. apply (H x). by left.
Qed.

(** C1. Scenario A: on the closing prices [1,5,2,6,1,7,1] with window 1 and
    three levels at most, the detector returns the support levels [1,2]
    (ascending) and the resistance levels [7,6,5] (descending).  The
    function returns the pair (support, resistance). *)
Theorem C1_scenario_A :
  find_support_resistance (close_frame [1; 5; 2; 6; 1; 7; 1]) 1 3
  = Ok ([1; 2], [7; 6; 5]).
Proof. vm_compute. reflexivity. Qed.

(** C2, as stated, fails: the series [1,5,2] has 3 points, fewer than
    [2*2+1 = 5] for window 2, and yet its middle point is returned as a
    resistance level.  Neighbours beyond either end are clipped to the
    first and the last point, so the point 5 is compared with 1 and 2 at
    both distances. *)
Lemma C2_counterexample :
  1 <= 2 /\
  Z.of_nat (length [1; 5; 2]) < 2 * 2 + 1 /\
  find_support_resistance (close_frame [1; 5; 2]) 2 3 = Ok ([], [5]) /\
  find_support_resistance (close_frame [1; 5; 2]) 2 3 <> Ok ([], []).
Proof.
  split; [lia|]. split; [simpl; lia|].
  split; [vm_compute; reflexivity|]. vm_compute. discriminate.
Qed.

(** C2, amended: for every window of at least 1, a frame with fewer than
    3 rows (so a closing-price series with fewer than 3 points, which is
    [2*window+1] for window 1) yields no support and no resistance level. *)
Theorem C2_fewer_than_three_points (df : DataFrame string) (window num_levels : Z) :
  1 <= window ->
  (length (df_rows df) < 3)%nat ->
  find_support_resistance df window num_levels = Ok ([], []).
Proof.
  intros Hw Hshort.
  destruct (detector_levels df window num_levels Hw)
    as (sup & res & -> & _ & _ & Hsup & Hres).
  pose proof (closes_length df) as Hlen.
  assert (sup = []) as ->.
  { apply no_elements_nil. intros v Hv. apply Hsup in Hv.
    apply (extremum_price_interior _ _ _ _ strict_lt Hw) in Hv as (i & Hi & _). lia. }
  assert (res = []) as ->.
  { apply no_elements_nil. intros v Hv. apply Hres in Hv.
    apply (extremum_price_interior _ _ _ _ strict_gt Hw) in Hv as (i & Hi & _). lia. }
  unfold Py.slice_to. rewrite !take_nil. by destruct (0 <=? num_levels).
Qed.

Lemma C2_fewer_than_three_points_witness :
  find_support_resistance (close_frame [4; 9]) 5 3 = Ok ([], []).
Proof.
  apply (C2_fewer_than_three_points (close_frame [4; 9]) 5 3); [lia | simpl; lia].
Defined.

(** C3, the failing input: with the parameters the caller passes when the
    S&R box is unticked (window 0, no level), the detector raises
    [ValueError] on every frame that holds at least one closing price,
    instead of returning a pair of sequences. *)
Theorem C3_disabled_parameters_raise (c : Z) (rest : list Z) :
  find_support_resistance (close_frame (c :: rest)) 0 0
  = Raise (ValueError "Order must be an int >= 1").
Proof. apply detector_rejects; [lia|reflexivity]. Qed.

(** C4, the failing input: with [max_levels = 0] and window 0 the detector
    does not return two empty sequences on the prices of scenario A; it
    raises. *)
Theorem C4_zero_levels_zero_window_raises :
  find_support_resistance (close_frame [1; 5; 2; 6; 1; 7; 1]) 0 0
  = Raise (ValueError "Order must be an int >= 1").
Proof. vm_compute. reflexivity. Qed.

(** C5. For every frame, every window of at least 1 and every
    [max_levels >= 0], the detector returns: as support the first
    [max_levels] of the distinct prices of the local minima in strictly
    ascending order, as resistance the first [max_levels] of the distinct
    prices of the local maxima in strictly descending order.  Each returned
    sequence is strictly sorted, free of duplicates, and at most
    [max_levels] long. *)
Theorem C5_sorted_distinct_truncated (df : DataFrame string) (window num_levels : Z) :
  1 <= window ->
  0 <= num_levels ->
  exists support resistance all_support all_resistance,
    find_support_resistance df window num_levels = Ok (support, resistance) /\
    StronglySorted Z.lt all_support /\
    (forall v, v ∈ all_support <-> extremum_price float_lt df window v) /\
    StronglySorted Z.gt all_resistance /\
    (forall v, v ∈ all_resistance <-> extremum_price float_gt df window v) /\
    support = take (Z.to_nat num_levels) all_support /\
    resistance = take (Z.to_nat num_levels) all_resistance /\
    StronglySorted Z.lt support /\ NoDup support /\
    (length support <= Z.to_nat num_levels)%nat /\
    StronglySorted Z.gt resistance /\ NoDup resistance /\
    (length resistance <= Z.to_nat num_levels)%nat.
Proof.
  intros Hw Hn.
  destruct (detector_levels df window num_levels Hw)
    as (sup & res & Hrun & Hsup_sorted & Hres_sorted & Hsup & Hres).
  rewrite !slice_to_take in Hrun by done.
  exists (take (Z.to_nat num_levels) sup), (take (Z.to_nat num_levels) res), sup, res.
  pose proof (StronglySorted_take Z.lt (Z.to_nat num_levels) sup Hsup_sorted).
  pose proof (StronglySorted_take Z.gt (Z.to_nat num_levels) res Hres_sorted).
  repeat split; try done.
  - by apply Hsup.
  - by apply Hsup.
  - by apply Hres.
  - by apply Hres.
  - by apply StronglySorted_lt_NoDup.
  - rewrite length_take. lia.
  - by apply StronglySorted_gt_NoDup.
  - rewrite length_take. lia.
Qed.

Lemma C5_sorted_distinct_truncated_witness :
  exists support resistance all_support all_resistance,
    find_support_resistance (close_frame [3; 8; 2; 9; 4; 8; 1; 2; 0]) 1 2
    = Ok (support, resistance) /\
    StronglySorted Z.lt all_support /\
    (forall v, v ∈ all_support
       <-> extremum_price float_lt (close_frame [3; 8; 2; 9; 4; 8; 1; 2; 0]) 1 v) /\
    StronglySorted Z.gt all_resistance /\
    (forall v, v ∈ all_resistance
       <-> extremum_price float_gt (close_frame [3; 8; 2; 9; 4; 8; 1; 2; 0]) 1 v) /\
    support = take (Z.to_nat 2) all_support /\
    resistance = take (Z.to_nat 2) all_resistance /\
    StronglySorted Z.lt support /\ NoDup support /\
    (length support <= Z.to_nat 2)%nat /\
    StronglySorted Z.gt resistance /\ NoDup resistance /\
    (length resistance <= Z.to_nat 2)%nat.
Proof.
  apply (C5_sorted_distinct_truncated
           (close_frame [3; 8; 2; 9; 4; 8; 1; 2; 0]) 1 2); lia.
Defined.

(** C10. For every series and every window of at least 1, the extremum
    search accepts the call and selects neither index 0 nor the last
    index, for maxima and for minima alike (a boundary point is compared
    with itself, its clipped neighbour, and a strict comparison of a point
    with itself fails); and every level the detector returns is the price
    at an interior index of the closing prices. *)
Theorem C10_boundaries_never_selected (df : DataFrame string) (window num_levels : Z) :
  1 <= window ->
  (exists maxima minima,
     Scipy.argrelextrema (closes df) float_gt window = Ok maxima /\
     Scipy.argrelextrema (closes df) float_lt window = Ok minima /\
     forall i, i ∈ maxima \/ i ∈ minima ->
       i <> 0%nat /\ i <> (length (closes df) - 1)%nat /\
       (0 < i < length (closes df) - 1)%nat) /\
  (exists support resistance,
     find_support_resistance df window num_levels = Ok (support, resistance) /\
     forall v, v ∈ support \/ v ∈ resistance ->
       exists i, (0 < i < length (closes df) - 1)%nat /\
                 closes df !! i = Some (Some v)).
Proof.
  intros Hw. split.
  - destruct (argrelextrema_spec float_gt (closes df) window Hw) as (ma & -> & Hma).
    destruct (argrelextrema_spec float_lt (closes df) window Hw) as (mi & -> & Hmi).
    exists ma, mi. split; [done|]. split; [done|].
    intros i [Hi|Hi].
    + apply Hma in Hi. apply (extremum_is_interior _ _ _ _ strict_gt Hw) in Hi. lia.
    + apply Hmi in Hi. apply (extremum_is_interior _ _ _ _ strict_lt Hw) in Hi. lia.
  - destruct (detector_levels df window num_levels Hw)
      as (sup & res & -> & _ & _ & Hsup & Hres).
    eexists _, _. split; [reflexivity|].
    intros v [Hv|Hv]; apply slice_to_subset in Hv.
    + apply Hsup in Hv. by eapply extremum_price_interior; [apply strict_lt|..].
    + apply Hres in Hv. by eapply extremum_price_interior; [apply strict_gt|..].
Qed.

Lemma C10_boundaries_never_selected_witness :
  (exists maxima minima,
     Scipy.argrelextrema (closes sample_dip) float_gt 2 = Ok maxima /\
     Scipy.argrelextrema (closes sample_dip) float_lt 2 = Ok minima /\
     forall i, i ∈ maxima \/ i ∈ minima ->
       i <> 0%nat /\ i <> (length (closes sample_dip) - 1)%nat /\
       (0 < i < length (closes sample_dip) - 1)%nat) /\
  (exists support resistance,
     find_support_resistance sample_dip 2 3 = Ok (support, resistance) /\
     forall v, v ∈ support \/ v ∈ resistance ->
       exists i, (0 < i < length (closes sample_dip) - 1)%nat /\
                 closes sample_dip !! i = Some (Some v)).
Proof.
  apply (C10_boundaries_never_selected sample_dip 2 3). lia.
Defined.

(** ** The fetcher *)

Lemma complete_row_spec (r : Z * list float64) :
  Pd.complete_row r = true <-> complete r.
Proof.
  unfold Pd.complete_row, complete. rewrite forallb_forall, Forall_forall.
  split; intros H c Hc.
  - apply list_elem_of_In in Hc. apply H in Hc. by apply bool_decide_eq_true in Hc.
  - apply bool_decide_eq_true. apply H. by apply list_elem_of_In.
Qed.

(** [dropna] keeps exactly the complete rows ... *)
Lemma dropna_rows {L} (df : DataFrame L) (r : Z * list float64) :
  r ∈ df_rows (Pd.dropna df) <-> r ∈ df_rows df /\ complete r.
Proof.
  unfold Pd.dropna. simpl.
  rewrite !list_elem_of_In, filter_In, complete_row_spec. done.
Qed.

Lemma filter_sublist {A} (f : A -> bool) (l : list A) : sublist (List.filter f l) l.
Proof.
  induction l as [|x l IH]; simpl; [constructor|].
  destruct (f x); by constructor.
Qed.

(** ... in their original order, under the same columns. *)
Lemma dropna_order {L} (df : DataFrame L) :
  sublist (df_rows (Pd.dropna df)) (df_rows df) /\
  df_columns (Pd.dropna df) = df_columns df.
Proof. split; [apply filter_sublist | reflexivity]. Qed.

Lemma any_dropna_rows (joined : AnyFrame) (r : Z * list float64) :
  r ∈ any_rows (any_dropna joined) <-> r ∈ any_rows joined /\ complete r.
Proof. destruct joined; apply dropna_rows. Qed.

Lemma any_dropna_order (joined : AnyFrame) :
  sublist (any_rows (any_dropna joined)) (any_rows joined).
Proof. destruct joined; apply filter_sublist. Qed.

Lemma cache_get_elem now req c data :
  cache_get now req c = Some data -> exists stored, (req, (stored, data)) ∈ c.
Proof.
  induction c as [|[key [stored d]] c IH]; simpl; [done|].
  destruct (decide (key = req)) as [->|Hne].
  - destruct (now - stored <? ttl); [|done].
    intros [= ->]. exists stored. by left.
  - intros H. destruct (IH H) as [st Hst]. exists st. by right.
Qed.

Lemma cache_put_elem now req data c e :
  e ∈ cache_put now req data c -> e = (req, (now, data)) \/ e ∈ c.
Proof.
  unfold cache_put. rewrite elem_of_cons. intros [->|H]; [by left|right].
  apply list_elem_of_In in H. apply filter_In in H as [H _].
  by apply list_elem_of_In.
Qed.

Section FetcherProperties.
Variable yf_download : Z -> Request -> result AnyFrame.

Lemma body_fetched now req s data s' :
  get_stock_data_body yf_download now req s = (Ok data, s') ->
  fetched yf_download req data.
Proof.
  unfold get_stock_data_body, fetched.
  destruct (fst (fst req)) as [|t ts].
  - by intros [= <- _].
  - destruct (yf_download now req) as [joined|e] eqn:Hdl; simpl; [|done].
    intros [= <- _]. by exists now, joined.
Qed.

Lemma body_downloads now req s :
  fst (fst req) = [] ->
  downloads (snd (get_stock_data_body yf_download now req s)) = downloads s.
Proof. unfold get_stock_data_body. by intros ->. Qed.

Lemma get_stock_data_sound now req s :
  cache_sound yf_download s ->
  cache_sound yf_download (snd (get_stock_data yf_download now req s)) /\
  forall data, fst (get_stock_data yf_download now req s) = Ok data ->
    fetched yf_download req data.
Proof.
  intros Hs. unfold get_stock_data. simpl.
  destruct (cache_get now req (cache s)) as [hit|] eqn:Hget; simpl.
  - split; [exact Hs|]. intros data [= <-].
    apply cache_get_elem in Hget as [stored Hin]. by eapply Hs.
  - destruct (get_stock_data_body _ _ _ _) as [r s'] eqn:Hbody.
    assert (cache s' = cache s) as Hcache.
    { revert Hbody. unfold get_stock_data_body.
      destruct (fst (fst req)); by intros [= _ <-]. }
    destruct r as [data|e]; simpl.
    + pose proof (body_fetched _ _ _ _ _ Hbody) as Hf. split.
      * intros key stored d Hin. simpl in Hin.
        apply cache_put_elem in Hin as [[= -> -> ->]|Hin]; [done|].
        rewrite Hcache in Hin. by eapply Hs.
      * by intros d [= <-].
    + split; [|done]. intros key stored d Hin. rewrite Hcache in Hin. by eapply Hs.
Qed.

Lemma session_after_sound history : cache_sound yf_download (session_after yf_download history).
Proof.
  unfold session_after.
  assert (cache_sound yf_download initial_session) as H0.
  { intros key stored data Hin. simpl in Hin. by apply elem_of_nil in Hin. }
  revert H0. generalize initial_session.
  induction history as [|call history IH]; intros s Hs; simpl; [done|].
  apply IH. by apply get_stock_data_sound.
Qed.

Lemma get_stock_data_no_download now req s :
  fst (fst req) = [] ->
  downloads (snd (get_stock_data yf_download now req s)) = downloads s.
Proof.
  intros Hreq. unfold get_stock_data. simpl.
  destruct (cache_get now req (cache s)); simpl; [done|].
  unfold get_stock_data_body. rewrite Hreq. reflexivity.
Qed.

Lemma get_stock_data_empty_returns now req s :
  fst (fst req) = [] ->
  cache_sound yf_download s ->
  fst (get_stock_data yf_download now req s) = Ok (FlatFrame Pd.empty_frame).
Proof.
  intros Hreq Hs. unfold get_stock_data. simpl.
  destruct (cache_get now req (cache s)) as [hit|] eqn:Hget; simpl.
  - apply cache_get_elem in Hget as [stored Hin]. apply Hs in Hin.
    unfold fetched in Hin. rewrite Hreq in Hin. by subst.
  - unfold get_stock_data_body. rewrite Hreq. reflexivity.
Qed.

(** C7. Whatever was fetched before, a fetch for an empty ticker list
    returns the empty frame and calls the provider not once; and a dataset
    the fetcher returns for a non-empty ticker list is a joined frame of
    the provider from which exactly the rows with a missing cell were
    dropped: a dated row is in the dataset if and only if it is in the
    joined frame and all of its cells (every field of every ticker) are
    present, and the surviving rows keep their order. *)
Theorem C7_fetcher_keeps_complete_rows
    (history : list (Z * Request)) (now : Z) (req : Request) :
  let s := session_after yf_download history in
  (fst (fst req) = [] ->
     fst (get_stock_data yf_download now req s) = Ok (FlatFrame Pd.empty_frame) /\
     downloads (snd (get_stock_data yf_download now req s)) = downloads s) /\
  (forall data,
     fst (get_stock_data yf_download now req s) = Ok data ->
     (forall row, row ∈ any_rows data -> complete row) /\
     (fst (fst req) <> [] ->
      exists t joined,
        yf_download t req = Ok joined /\
        data = any_dropna joined /\
        (forall row, row ∈ any_rows data <-> row ∈ any_rows joined /\ complete row) /\
        sublist (any_rows data) (any_rows joined))).
Proof.
  intros s. pose proof (session_after_sound history) as Hs. fold s in Hs.
  split.
  - intros Hreq. split.
    + by apply get_stock_data_empty_returns.
    + by apply get_stock_data_no_download.
  - intros data Hdata.
    destruct (get_stock_data_sound now req s Hs) as [_ Hf].
    specialize (Hf data Hdata). unfold fetched in Hf.
    destruct (fst (fst req)) as [|t ts] eqn:Hreq.
    + subst data. split; [|done]. intros row Hrow. simpl in Hrow.
      by apply elem_of_nil in Hrow.
    + destruct Hf as (t0 & joined & Hdl & ->). split.
      * intros row Hrow. by apply any_dropna_rows in Hrow as [_ ?].
      * intros _. exists t0, joined. split; [done|]. split; [done|].
        split; [apply any_dropna_rows | apply any_dropna_order].
Qed.

End FetcherProperties.

(** C7 on the sample provider: day 2, on which MSFT has no close, is the
    one row dropped. *)
Lemma C7_fetcher_keeps_complete_rows_witness :
  fst (get_stock_data sample_provider 100 (["AAPL"; "MSFT"], 1, 4) initial_session)
  = Ok (any_dropna sample_joined) /\
  map fst (any_rows (any_dropna sample_joined)) = [1; 3; 4; 5] /\
  forall row, row ∈ any_rows (any_dropna sample_joined) -> complete row.
Proof.
  split; [reflexivity|]. split; [reflexivity|].
  apply (C7_fetcher_keeps_complete_rows sample_provider [] 100
           (["AAPL"; "MSFT"], 1, 4)).
  reflexivity.
Defined.

(** ** The script: date guard *)

(** C6, as stated, fails: with nothing selected and a start date equal to
    the end date, the run shows the selection prompt and reports no
    invalid-date-range error (the empty selection is tested first). *)
Lemma C6_counterexample :
  end_date sidebar_no_selection <= start_date sidebar_no_selection /\
  fst (main sample_provider sidebar_no_selection 100 initial_session)
  = mkPage [select_prompt] [] None /\
  invalid_date_range ∉ page_body
    (fst (main sample_provider sidebar_no_selection 100 initial_session)).
Proof.
  split; [simpl; lia|]. split; [reflexivity|].
  simpl. rewrite list_elem_of_singleton. discriminate.
Qed.

(** C6, amended: whenever the start date is greater than or equal to the
    end date, the run leaves the session as it was, so [get_stock_data] is
    not invoked and the provider is not called; if at least one ticker is
    selected the page shows the invalid-date-range error and nothing else;
    if none is selected it shows the selection prompt instead. *)
Theorem C6_date_guard (yf_download : Z -> Request -> result AnyFrame)
    (sb : Sidebar) (now : Z) (s : Session) :
  end_date sb <= start_date sb ->
  snd (main yf_download sb now s) = s /\
  invocations (snd (main yf_download sb now s)) = invocations s /\
  downloads (snd (main yf_download sb now s)) = downloads s /\
  (selected_tickers sb <> [] ->
     fst (main yf_download sb now s) = mkPage [invalid_date_range] [] None) /\
  (selected_tickers sb = [] ->
     fst (main yf_download sb now s) = mkPage [select_prompt] [] None).
Proof.
  intros Hdates. unfold main.
  destruct (selected_tickers sb) as [|t ts]; simpl.
  - repeat split; done.
  - destruct (end_date sb <=? start_date sb) eqn:Hle; [|lia]. simpl.
    repeat split; done.
Qed.

Lemma C6_date_guard_witness :
  snd (main sample_provider sidebar_bad_dates 100 initial_session) = initial_session /\
  fst (main sample_provider sidebar_bad_dates 100 initial_session)
  = mkPage [invalid_date_range] [] None.
Proof.
  pose proof (C6_date_guard sample_provider sidebar_bad_dates 100 initial_session
                ltac:(simpl; lia)) as (Hs & _ & _ & Hpage & _).
  split; [exact Hs|]. apply Hpage. discriminate.
Defined.

(** ** The moving average *)

Lemma finite_values_present (zs : list Z) : finite_values (Some <$> zs) = zs.
Proof.
  unfold finite_values. induction zs as [|z zs IH]; simpl; [done|]. f_equal. exact IH.
Qed.

Lemma rolling_mean_length (w : nat) (xs : list float64) :
  length (rolling_mean w xs) = length xs.
Proof. unfold rolling_mean. by rewrite length_map, length_seq. Qed.

(** With every close present and a period of at least 1, the rolling mean
    at position [i] is undefined for [i < p-1] and defined, over the [p]
    closes ending at [i], from there on. *)
Lemma rolling_mean_lookup (p : nat) (zs : list Z) (i : nat) :
  (1 <= p)%nat -> (i < length zs)%nat ->
  rolling_mean p (Some <$> zs) !! i
  = Some (if decide (p - 1 <= i)%nat
          then Some (mean (take p (drop (i + 1 - p) zs))) else None).
Proof.
  intros Hp Hi. unfold rolling_mean.
  rewrite list_lookup_fmap, length_fmap, lookup_seq_lt by done. simpl. f_equal.
  unfold window_cells. rewrite <- fmap_drop, <- fmap_take, finite_values_present.
  destruct (decide (p - 1 <= i)%nat) as [Hge|Hlt].
  - replace (i + 1 - (i + 1 - p))%nat with p by lia.
    assert (length (take p (drop (i + 1 - p) zs)) = p) as Hlen.
    { rewrite length_take, length_drop. lia. }
    rewrite Hlen.
    replace (p <=? p)%nat with true by (symmetry; apply Nat.leb_le; lia).
    replace (0 <? p)%nat with true by (symmetry; apply Nat.ltb_lt; lia).
    done.
  - replace (i + 1 - p)%nat with 0%nat by lia.
    rewrite drop_0. replace (i + 1 - 0)%nat with (i + 1)%nat by lia.
    rewrite length_take.
    replace (p <=? _)%nat with false by (symmetry; apply Nat.leb_gt; lia).
    done.
Qed.

Lemma position_elem {L} `{EqDecision L} (label : L) (cols : list L) (j : nat) :
  Pd.position label cols = Some j -> label ∈ cols.
Proof.
  revert j. induction cols as [|c cols IH]; intros j; simpl; [done|].
  destruct (decide (c = label)) as [->|Hne]; [intros; by left|].
  destruct (Pd.position label cols) as [k|]; simpl; [|done].
  intros _. right. by eapply IH.
Qed.

Lemma column_values_has_column (df : DataFrame string) (label : string) vs :
  Pd.column_values id df label = Ok vs -> Pd.has_column df label = true.
Proof.
  unfold Pd.column_values, Pd.has_column.
  destruct (Pd.position label (df_columns df)) as [j|] eqn:Hpos; [|done].
  intros _. apply bool_decide_eq_true. by eapply position_elem.
Qed.

(** The detector never raises for a window of at least 1. *)
Lemma detector_returns (df : DataFrame string) (window num_levels : Z) :
  1 <= window ->
  exists support resistance,
    find_support_resistance df window num_levels = Ok (support, resistance).
Proof.
  intros Hw. destruct (detector_levels df window num_levels Hw) as (s & r & -> & _).
  eauto.
Qed.

(** C8, the failing input: the SMA overlay is requested with period 20 on
    a series of four closes, and the S&R box is unticked, so the script
    passes window 0.  The overlay is computed (all of it undefined), then
    the detector raises, and nothing is drawn: no candlesticks, no overlay.
    The run ends after the ticker's subheader. *)
Theorem C8_sma_with_sr_off_draws_nothing :
  plot_candlestick (any_dropna sample_joined) "AAPL" 300 0 0 true 20
  = Raise (ValueError "Order must be an int >= 1") /\
  fst (main sample_provider (mkSidebar ["AAPL"] 1 4 true 20 false 20 3) 100
         initial_session)
  = mkPage [Markdown "**Viewing data from 1 to 4**"]
           [[Subheader "AAPL"]; []; []]
           (Some (ValueError "Order must be an int >= 1")).
Proof. split; vm_compute; reflexivity. Qed.

(** X22. With a detector window of at least 1, a call that requests the SMA
    overlay with a period [p >= 1], on a slice that has its four price
    columns and all of its closes present, draws the chart: its traces
    are the candlesticks followed by the overlay.  The overlay has one
    point per close, undefined at each of the first [p-1] positions and
    defined at every position from [p-1] on; on a series shorter than [p]
    it is undefined everywhere, and the candlesticks are drawn all the
    same. *)
Theorem sma_overlay_defined_from_period (df : AnyFrame) (ticker : string)
    (height sr_window sr_num_levels : Z) (p : nat)
    (plot_data : DataFrame string) (candles : trace) (zs : list Z) :
  (1 <= p)%nat ->
  1 <= sr_window ->
  plot_data_of df ticker = Ok plot_data ->
  candlestick_of plot_data = Ok candles ->
  Pd.column_values id plot_data close_label = Ok (Some <$> zs) ->
  exists fig overlay,
    plot_candlestick df ticker height sr_window sr_num_levels true p
    = Ok (PlotlyChart fig) /\
    fig_traces fig
    = [candles; Scatter (Pd.index plot_data) overlay ("SMA " +:+ pretty p)] /\
    length overlay = length zs /\
    (forall i, (p - 1 <= i < length zs)%nat -> exists q, overlay !! i = Some (Some q)) /\
    (forall i, (i < p - 1)%nat -> (i < length zs)%nat -> overlay !! i = Some None) /\
    ((length zs < p)%nat -> overlay = replicate (length zs) None).
Proof.
  intros Hp Hw Hslice Hcandles Hclose.
  destruct (detector_returns plot_data sr_window sr_num_levels Hw)
    as (sup & res & Hlevels).
  exists (mkFigure
            [candles; Scatter (Pd.index plot_data) (rolling_mean p (Some <$> zs))
                              ("SMA " +:+ pretty p)]
            (map (mkHLine Support) sup ++ map (mkHLine Resistance) res)
            (ticker +:+ " Candlestick Chart") height),
         (rolling_mean p (Some <$> zs)).
  split.
  { unfold plot_candlestick. rewrite Hslice. simpl. rewrite Hcandles. simpl.
    unfold sma_traces. rewrite (column_values_has_column _ _ _ Hclose). simpl.
    rewrite Hclose. simpl. rewrite Hlevels. reflexivity. }
  split; [reflexivity|].
  split; [by rewrite rolling_mean_length, length_fmap|].
  split; [|split].
  - intros i [Hge Hlt]. rewrite rolling_mean_lookup by done.
    destruct (decide (p - 1 <= i)%nat); [eauto|lia].
  - intros i Hlt Hi. rewrite rolling_mean_lookup by done.
    destruct (decide (p - 1 <= i)%nat); [lia|done].
  - intros Hshort. apply list_eq. intros i.
    destruct (decide (i < length zs)%nat) as [Hi|Hi].
    + rewrite rolling_mean_lookup, lookup_replicate_2 by done.
      destruct (decide (p - 1 <= i)%nat); [lia|done].
    + rewrite !lookup_ge_None_2; [done|rewrite length_replicate; lia|].
      rewrite rolling_mean_length, length_fmap. lia.
Qed.

Lemma sma_overlay_defined_from_period_witness :
  exists (fig : Figure) (overlay : list (option Q)),
    plot_candlestick (any_dropna sample_joined) "AAPL" 300 20 3 true 2
    = Ok (PlotlyChart fig) /\
    length overlay = 4%nat /\
    overlay !! 0%nat = Some None /\
    exists q, overlay !! 3%nat = Some (Some q).
Proof.
  destruct (sma_overlay_defined_from_period (any_dropna sample_joined) "AAPL" 300 20 3 2
              _ _ [11; 15; 13; 17]
              ltac:(lia) ltac:(lia) eq_refl eq_refl eq_refl)
    as (fig & overlay & Hrun & _ & Hlen & Hdef & Hundef & _).
  exists fig, overlay. split; [exact Hrun|]. split; [exact Hlen|].
  split; [apply Hundef; simpl; lia | apply Hdef; simpl; lia].
Defined.

(** ** The chart builder and the grid *)

#[local] Arguments Nat.modulo : simpl never.

Lemma column_values_key_error {L} `{EqDecision L} show (df : DataFrame L) label :
  key_error_only (Pd.column_values show df label).
Proof. unfold Pd.column_values. by destruct (Pd.position _ _). Qed.

Lemma bind_key_error {A B} (r : result A) (k : A -> result B) :
  key_error_only r -> (forall a, key_error_only (k a)) -> key_error_only (r ≫= k).
Proof. destruct r as [a|[]]; simpl; auto. Qed.

Lemma candlestick_key_error plot_data : key_error_only (candlestick_of plot_data).
Proof.
  unfold candlestick_of.
  repeat (apply bind_key_error; [apply column_values_key_error | intros ?]).
  exact I.
Qed.

Lemma sma_traces_key_error plot_data show_sma p :
  key_error_only (sma_traces plot_data show_sma p).
Proof.
  unfold sma_traces. destruct (_ && _); [|exact I].
  apply bind_key_error; [apply column_values_key_error | intros ?; exact I].
Qed.

Lemma plot_data_key_error df ticker : key_error_only (plot_data_of df ticker).
Proof.
  destruct df as [d|d]; simpl; [exact I|].
  unfold select_ticker. by destruct (Np.any _).
Qed.

(** With a detector window of at least 1 the chart builder ends in a chart
    or in its missing-data warning; it raises nothing. *)
Lemma plot_candlestick_returns df ticker height sr_window sr_num_levels show_sma p :
  1 <= sr_window ->
  (exists fig, plot_candlestick df ticker height sr_window sr_num_levels show_sma p
               = Ok (PlotlyChart fig)) \/
  (exists msg, plot_candlestick df ticker height sr_window sr_num_levels show_sma p
               = Ok (Warning msg)).
Proof.
  intros Hw. unfold plot_candlestick.
  pose proof (plot_data_key_error df ticker) as H1.
  destruct (plot_data_of df ticker) as [plot_data|[]]; simpl in *; try done; eauto.
  pose proof (candlestick_key_error plot_data) as H2.
  destruct (candlestick_of plot_data) as [candles|[]]; simpl in *; try done; eauto.
  pose proof (sma_traces_key_error plot_data show_sma p) as H3.
  destruct (sma_traces plot_data show_sma p) as [overlay|[]]; simpl in *; try done; eauto.
  destruct (detector_returns plot_data sr_window sr_num_levels Hw) as (sup & res & ->).
  simpl. eauto.
Qed.

Lemma cell_content_returns sb data ticker :
  sr_enabled sb = true -> 1 <= sr_window_slider sb ->
  (exists fig, cell_content sb data ticker = Ok (PlotlyChart fig)) \/
  (exists msg, cell_content sb data ticker = Ok (Warning msg)).
Proof.
  intros Hon Hw. unfold cell_content, sr_window. rewrite Hon.
  destruct (has_ohlc data ticker); [|eauto].
  by apply plot_candlestick_returns.
Qed.

Lemma write_to_length c el cols : length (write_to c el cols) = length cols.
Proof. unfold write_to. apply length_alter. Qed.

Lemma write_to_lookup c el cols c' :
  write_to c el cols !! c'
  = (fun col => if decide (c = c') then col ++ [el] else col) <$> cols !! c'.
Proof.
  unfold write_to. destruct (decide (c = c')) as [->|Hne].
  - rewrite list_lookup_alter_eq. by destruct (cols !! c').
  - rewrite list_lookup_alter_ne by done. by destruct (cols !! c').
Qed.

(** The loop, from any index and any state of the three columns: if no
    cell raises, each column grows by the cells of its own tickers, in
    selection order. *)
Lemma grid_loop_columns sb data tickers : forall i cols,
  (forall t, t ∈ tickers -> exists el, cell_content sb data t = Ok el) ->
  exists cols',
    grid_loop sb data i tickers cols = (cols', None) /\
    length cols' = length cols /\
    forall c,
      cols' !! c
      = (fun col => col ++ flat_map (cell_elements sb data) (column_tickers c i tickers))
        <$> cols !! c.
Proof.
  induction tickers as [|t rest IH]; intros i cols Hok.
  - exists cols. split; [done|]. split; [done|]. intros c. simpl.
    destruct (cols !! c); simpl; [by rewrite app_nil_r|done].
  - cbn [grid_loop column_tickers].
    destruct (Hok t ltac:(by left)) as [el Hel]. rewrite Hel.
    set (c0 := (i mod CHART_COLUMNS)%nat). clearbody c0.
    destruct (IH (S i) (write_to c0 el (write_to c0 (Subheader t) cols)))
      as (cols' & -> & Hlen & Hcols).
    { intros t' Ht'. apply Hok. by right. }
    exists cols'. split; [done|]. split; [by rewrite Hlen, !write_to_length|].
    intros c. rewrite Hcols, !write_to_lookup.
    destruct (cols !! c) as [col|]; simpl; [|done]. f_equal.
    destruct (decide (c0 = c)) as [Hc|Hc]; simpl; [|done].
    unfold cell_elements at 2. rewrite Hel. simpl. by rewrite <- !app_assoc.
Qed.

Lemma column_tickers_snoc c tickers t : forall i,
  column_tickers c i (tickers ++ [t])
  = column_tickers c i tickers
    ++ (if decide (((i + length tickers) mod CHART_COLUMNS)%nat = c) then [t] else []).
Proof.
  induction tickers as [|t' rest IH]; intros i; simpl.
  - replace (i + 0)%nat with i by lia. by destruct (decide _).
  - rewrite IH. replace (S i + length rest)%nat with (i + S (length rest))%nat by lia.
    by destruct (decide ((i mod CHART_COLUMNS)%nat = c)).
Qed.

(** Row [k] of column [c] belongs to the ticker of index [c + 3k]: the
    ticker of index [i] sits in column [i mod 3], row [i / 3]. *)
Lemma column_tickers_lookup c tickers :
  (c < CHART_COLUMNS)%nat ->
  forall k, column_tickers c 0 tickers !! k = tickers !! (c + CHART_COLUMNS * k)%nat.
Proof.
  unfold CHART_COLUMNS. intros Hc.
  induction tickers as [|t tickers IH] using rev_ind; intros k; [done|].
  rewrite column_tickers_snoc. simpl (0 + _)%nat.
  set (col := column_tickers c 0 tickers) in *.
  assert (forall j, (length col <= j)%nat <-> (length tickers <= c + 3 * j)%nat) as Hlen.
  { intros j. rewrite <- !lookup_ge_None, IH. done. }
  pose proof (Nat.div_mod_eq (length tickers) 3) as Hdm.
  pose proof (Nat.mod_upper_bound (length tickers) 3 ltac:(lia)) as Hmod.
  set (q := (length tickers / 3)%nat) in *.
  set (r := (length tickers mod 3)%nat) in *.
  unfold CHART_COLUMNS. fold r.
  destruct (decide (r = c)) as [Hr|Hr].
  - assert (length col = q) as Hq.
    { pose proof (proj1 (Hlen (length col)) ltac:(lia)).
      destruct (decide (length col = 0%nat)) as [H0|H0]; [lia|].
      pose proof (proj2 (Hlen (length col - 1)%nat)). lia. }
    destruct (decide (k < q)%nat) as [Hk|Hk].
    + rewrite !lookup_app_l by lia. apply IH.
    + destruct (decide (k = q)) as [->|Hne].
      * rewrite lookup_app_r by lia. rewrite Hq, Nat.sub_diag.
        rewrite lookup_app_r by lia.
        replace (c + 3 * q - length tickers)%nat with 0%nat by lia. done.
      * rewrite !lookup_ge_None_2; [done| |]; rewrite length_app; simpl; lia.
  - rewrite app_nil_r.
    destruct (decide (c + 3 * k < length tickers)%nat) as [Hk|Hk].
    + rewrite lookup_app_l by lia. apply IH.
    + rewrite IH. rewrite !lookup_ge_None_2; [done| |lia].
      rewrite length_app. simpl.
      assert (c + 3 * k <> length tickers)%nat; [|lia].
      intros Heq. apply Hr. subst r. rewrite <- Heq.
      replace (c + 3 * k)%nat with (c + k * 3)%nat by lia.
      rewrite Nat.Div0.mod_add. by apply Nat.mod_small.
Qed.

(** With a detector window below 1, a slice that has its price columns and
    at least one row makes the chart builder raise: the [ValueError] of the
    extremum search is not a [KeyError], so nothing catches it. *)
Lemma plot_candlestick_rejects df ticker height sr_window sr_num_levels show_sma p
    plot_data candles :
  sr_window < 1 ->
  plot_data_of df ticker = Ok plot_data ->
  candlestick_of plot_data = Ok candles ->
  df_rows plot_data <> [] ->
  plot_candlestick df ticker height sr_window sr_num_levels show_sma p
  = Raise (ValueError "Order must be an int >= 1").
Proof.
  intros Hw Hslice Hcandles Hrows. unfold plot_candlestick.
  rewrite Hslice. simpl. rewrite Hcandles. simpl.
  assert (Pd.has_column plot_data close_label = true) as Hclose.
  { revert Hcandles. unfold candlestick_of.
    destruct (Pd.column_values id plot_data "Open"); simpl; [|done].
    destruct (Pd.column_values id plot_data "High"); simpl; [|done].
    destruct (Pd.column_values id plot_data "Low"); simpl; [|done].
    destruct (Pd.column_values id plot_data close_label) eqn:Hc; simpl; [|done].
    intros _. by eapply column_values_has_column. }
  assert (Pd.empty plot_data || negb (Pd.has_column plot_data close_label) = false)
    as Hgo.
  { rewrite Hclose. simpl. rewrite orb_false_r. unfold Pd.empty.
    apply bool_decide_eq_true in Hclose.
    destruct (df_columns plot_data); [by apply elem_of_nil in Hclose|].
    by destruct (df_rows plot_data). }
  unfold sma_traces. rewrite Hclose, (proceeds_closes plot_data Hgo).
  destruct (show_sma && true); simpl; by rewrite (detector_rejects _ _ _ Hw Hgo).
Qed.

(** C9, the failing input: two tickers, both with data, and the S&R box
    unticked.  The run writes the first ticker's subheader, raises in its
    chart and ends: the first ticker has no chart and no warning, the
    second ticker has no cell at all. *)
Theorem C9_sr_off_second_ticker_has_no_cell :
  fst (main sample_provider sidebar_sr_off 100 initial_session)
  = mkPage [Markdown "**Viewing data from 1 to 4**"]
           [[Subheader "AAPL"]; []; []]
           (Some (ValueError "Order must be an int >= 1")).
Proof. vm_compute. reflexivity. Qed.

(** X3. With the S&R box ticked and its window slider at 1 or more, the grid
    loop raises nothing and fills the three columns round robin: column
    [c] holds, top to bottom, the cells of the tickers of index [c],
    [c + 3], [c + 6], ... (so the ticker of index [i] is in column
    [i mod 3], row [i / 3]), each cell being the ticker's subheader
    followed by its chart or by a warning. *)
Theorem grid_round_robin (sb : Sidebar) (data : AnyFrame) (tickers : list string) :
  sr_enabled sb = true ->
  1 <= sr_window_slider sb ->
  exists cols,
    grid_loop sb data 0 tickers (replicate CHART_COLUMNS []) = (cols, None) /\
    length cols = CHART_COLUMNS /\
    (forall c, (c < CHART_COLUMNS)%nat ->
       cols !! c
       = Some (flat_map (cell_elements sb data) (column_tickers c 0 tickers)) /\
       forall k, column_tickers c 0 tickers !! k
                 = tickers !! (c + CHART_COLUMNS * k)%nat) /\
    (forall t, t ∈ tickers ->
       exists el, cell_elements sb data t = [Subheader t; el] /\
                  ((exists fig, el = PlotlyChart fig) \/ (exists msg, el = Warning msg))).
Proof.
  intros Hon Hw.
  assert (forall t, exists el, cell_content sb data t = Ok el /\
            ((exists fig, el = PlotlyChart fig) \/ (exists msg, el = Warning msg)))
    as Hcell.
  { intros t. destruct (cell_content_returns sb data t Hon Hw) as [[fig H]|[msg H]];
      rewrite H; eauto 6. }
  destruct (grid_loop_columns sb data tickers 0 (replicate CHART_COLUMNS []))
    as (cols & Hrun & Hlen & Hcols).
  { intros t _. destruct (Hcell t) as (el & Hel & _). eauto. }
  exists cols. split; [done|]. split; [by rewrite Hlen, length_replicate|]. split.
  - intros c Hc. split; [|by apply column_tickers_lookup].
    rewrite Hcols, lookup_replicate_2 by done. reflexivity.
  - intros t _. destruct (Hcell t) as (el & Hel & Hkind).
    exists el. unfold cell_elements. by rewrite Hel.
Qed.

Lemma grid_round_robin_witness :
  exists cols,
    grid_loop sidebar_sr_on (any_dropna sample_joined) 0
      ["AAPL"; "MSFT"; "GOOGL"; "AMZN"] (replicate CHART_COLUMNS [])
    = (cols, None) /\
    length cols = CHART_COLUMNS /\
    column_tickers 0 0 ["AAPL"; "MSFT"; "GOOGL"; "AMZN"] = ["AAPL"; "AMZN"] /\
    column_tickers 1 0 ["AAPL"; "MSFT"; "GOOGL"; "AMZN"] = ["MSFT"] /\
    column_tickers 2 0 ["AAPL"; "MSFT"; "GOOGL"; "AMZN"] = ["GOOGL"].
Proof.
  destruct (grid_round_robin sidebar_sr_on (any_dropna sample_joined)
              ["AAPL"; "MSFT"; "GOOGL"; "AMZN"] eq_refl ltac:(simpl; lia))
    as (cols & Hrun & Hlen & _).
  exists cols. split; [exact Hrun|]. split; [exact Hlen|].
  split; [reflexivity|]. split; reflexivity.
Defined.

(** X1. For every frame and every window of at least 1, asking for no level
    gives two empty sequences, however many extrema the series has. *)
Theorem zero_levels_return_nothing (df : DataFrame string) (window : Z) :
  1 <= window ->
  find_support_resistance df window 0 = Ok ([], []).
Proof.
  intros Hw. destruct (detector_levels df window 0 Hw) as (sup & res & -> & _).
  unfold Py.slice_to. simpl. by rewrite !take_0.
Qed.

Lemma zero_levels_return_nothing_witness :
  find_support_resistance (close_frame [1; 5; 2; 6; 1; 7; 1]) 1 0 = Ok ([], []).
Proof.
  apply (zero_levels_return_nothing (close_frame [1; 5; 2; 6; 1; 7; 1]) 1). lia.
Defined.

(** X2. The detector returns a pair of sequences, and raises nothing, on
    every frame when the window is at least 1; and on an empty frame or a frame
    without a "Close" column it returns two empty sequences whatever the
    window and the number of levels, 0 and negative values included. *)
Theorem degenerate_input_returns (df : DataFrame string) (window num_levels : Z) :
  (1 <= window ->
     exists support resistance,
       find_support_resistance df window num_levels = Ok (support, resistance)) /\
  (Pd.empty df = true \/ Pd.has_column df close_label = false ->
     find_support_resistance df window num_levels = Ok ([], [])).
Proof.
  split; [apply detector_returns|].
  intros Hdeg. unfold find_support_resistance.
  replace (Pd.empty df || negb (Pd.has_column df close_label)) with true; [done|].
  symmetry. destruct Hdeg as [->| ->]; [done|]. apply orb_true_r.
Qed.

(** The projection to finite values drops nothing from the cells the
    detector selects: every selected cell is a finite price. *)
Lemma selected_cells_finite cmp (prices : list float64) (window : Z) (idx : list nat) :
  strict cmp -> 1 <= window ->
  Scipy.argrelextrema prices cmp window = Ok idx ->
  Np.index_with prices idx = Some <$> finite_values (Np.index_with prices idx).
Proof.
  intros Hstrict Hw Hrun.
  destruct (argrelextrema_spec cmp prices window Hw) as (idx' & Hrun' & Hspec).
  rewrite Hrun in Hrun'. injection Hrun' as <-.
  assert (Forall (fun i => exists v, prices !! i = Some (Some v)) idx) as Hall.
  { apply Forall_forall. intros i Hi. apply Hspec in Hi.
    by eapply extremum_is_finite. }
  clear Hrun Hspec. unfold Np.index_with, finite_values.
  induction Hall as [|i idx (v & Hv) _ IH]; simpl; [done|].
  unfold float64 in *. rewrite Hv. simpl. f_equal. exact IH.
Qed.

(** With the S&R box unticked, the first selected ticker that has its price
    columns and a row ends the run: its subheader is the last thing
    written. *)
Lemma sr_off_run_ends (sb : Sidebar) (data : AnyFrame) (t : string) (rest : list string)
    (i : nat) (cols : list (list element)) plot_data candles :
  sr_enabled sb = false ->
  has_ohlc data t = true ->
  plot_data_of data t = Ok plot_data ->
  candlestick_of plot_data = Ok candles ->
  df_rows plot_data <> [] ->
  grid_loop sb data i (t :: rest) cols
  = (write_to (i mod CHART_COLUMNS) (Subheader t) cols,
     Some (ValueError "Order must be an int >= 1")).
Proof.
  intros Hoff Hdata Hslice Hcandles Hrows. cbn [grid_loop].
  unfold cell_content. rewrite Hdata, Hoff.
  by rewrite (plot_candlestick_rejects _ _ _ 0 0 _ _ plot_data candles).
Qed.

(** ** The script: a failed fetch *)

(** X4. When the fetch raises, for a non-empty selection over a valid date
    range, the page shows the fetch error followed by the no-data warning,
    and no grid. *)
Theorem fetch_failure_page (yf_download : Z -> Request -> result AnyFrame)
    (sb : Sidebar) (now : Z) (s : Session) (e : exn) :
  selected_tickers sb <> [] ->
  start_date sb < end_date sb ->
  fst (get_stock_data yf_download now
         (selected_tickers sb, start_date sb, end_date sb) s) = Raise e ->
  fst (main yf_download sb now s)
  = mkPage
      [Error ("Error fetching data: " +:+ exn_message e
              +:+ ". Check your selected dates and tickers.");
       Warning "No data returned for the selected tickers/date range. Data might be missing or the market is closed."]
      [] None.
Proof.
  intros Hsel Hdates Hfetch. unfold main.
  destruct (selected_tickers sb) as [|t ts] eqn:Hts; [done|].
  destruct (end_date sb <=? start_date sb) eqn:Hle; [lia|].
  destruct (get_stock_data _ _ _ _) as [r s']. simpl in Hfetch. subst r.
  reflexivity.
Qed.

Lemma fetch_failure_page_witness :
  fst (main offline_provider sidebar_sr_on 100 initial_session)
  = mkPage
      [Error "Error fetching data: no route to host. Check your selected dates and tickers.";
       Warning "No data returned for the selected tickers/date range. Data might be missing or the market is closed."]
      [] None.
Proof.
  apply (fetch_failure_page offline_provider sidebar_sr_on 100 initial_session
           (ProviderError "no route to host"));
    [discriminate | simpl; lia | reflexivity].
Defined.

(** * Further properties *)

(** ** The detector reads the closing prices only *)

Lemma early_return_iff (df : DataFrame string) :
  Pd.empty df || negb (Pd.has_column df close_label) = true <-> closes df = [].
Proof.
  split; [apply early_return_closes|]. intros Hnil.
  destruct (Pd.empty df || negb (Pd.has_column df close_label)) eqn:Hearly; [done|].
  pose proof (proceeds_closes df Hearly) as Hcol.
  apply orb_false_iff in Hearly as [Hempty _].
  unfold Pd.column_values in Hcol.
  destruct (Pd.position close_label (df_columns df)); [|done].
  injection Hcol as Hcol. rewrite Hnil in Hcol.
  unfold Pd.empty in Hempty.
  destruct (df_columns df); [done|]. by destruct (df_rows df).
Qed.

(** X5. The detector's answer, an exception included, depends on the frame
    through its closing prices only: two frames with the same "Close"
    column (or both without closing prices) give the same result, whatever
    other columns they carry. *)
Theorem detector_reads_closes_only (df df' : DataFrame string) (window num_levels : Z) :
  closes df = closes df' ->
  find_support_resistance df window num_levels
  = find_support_resistance df' window num_levels.
Proof.
  intros Hsame. unfold find_support_resistance.
  destruct (Pd.empty df || negb (Pd.has_column df close_label)) eqn:H1;
    destruct (Pd.empty df' || negb (Pd.has_column df' close_label)) eqn:H2.
  - reflexivity.
  - apply early_return_iff in H1. rewrite Hsame in H1.
    apply early_return_iff in H1. congruence.
  - apply early_return_iff in H2. rewrite <- Hsame in H2.
    apply early_return_iff in H2. congruence.
  - by rewrite (proceeds_closes df H1), (proceeds_closes df' H2), Hsame.
Qed.

Lemma detector_reads_closes_only_witness :
  find_support_resistance sample_dip_wide 1 3 = find_support_resistance sample_dip 1 3.
Proof. apply (detector_reads_closes_only sample_dip_wide sample_dip 1 3). reflexivity. Defined.

(** ** Series without a turning point *)

Lemma float_lt_gt (x y : float64) : float_lt x y = float_gt y x.
Proof. by destruct x, y. Qed.

Lemma neighbour_next (data : list float64) (i : nat) :
  (S i < length data)%nat -> data !! S i = Some (neighbour data (Z.of_nat i + 1)).
Proof.
  intros Hi. replace (Z.of_nat i + 1) with (Z.of_nat (S i)) by lia.
  by apply neighbour_in_range.
Qed.

Lemma neighbour_previous (data : list float64) (i : nat) :
  (0 < i < length data)%nat ->
  data !! (i - 1)%nat = Some (neighbour data (Z.of_nat i - 1)).
Proof.
  intros Hi. replace (Z.of_nat i - 1) with (Z.of_nat (i - 1)) by lia.
  apply neighbour_in_range. lia.
Qed.

Lemma no_extremum_without_turn cmp (data : list float64) (order : Z) (i : nat) :
  (cmp = float_gt \/ cmp = float_lt) ->
  never_falls data \/ never_rises data ->
  1 <= order -> ~ local_extremum cmp data order i.
Proof.
  intros Hcmp Hmono Horder Hext.
  assert (strict cmp) as Hstrict by (destruct Hcmp as [-> | ->]; [apply strict_gt | apply strict_lt]).
  pose proof (extremum_is_interior cmp data order i Hstrict Horder Hext) as Hi.
  destruct Hext as [_ Hall]. destruct (Hall 1 ltac:(lia)) as [Hnext Hprev].
  pose proof (neighbour_in_range data i ltac:(lia)) as Hhere.
  pose proof (neighbour_next data i ltac:(lia)) as Hn.
  pose proof (neighbour_previous data i ltac:(lia)) as Hp.
  replace i with (S (i - 1)) in Hhere at 1 by lia.
  replace (S i) with (S (S (i - 1))) in Hn by lia.
  destruct Hcmp as [-> | ->]; destruct Hmono as [Hmono | Hmono].
  - rewrite (Hmono (S (i - 1)) _ _) in Hnext; [done| |exact Hn].
    by replace (S (i - 1)) with i in * by lia.
  - rewrite <- float_lt_gt, (Hmono (i - 1)%nat _ _ Hp Hhere) in Hprev. done.
  - rewrite float_lt_gt, (Hmono (i - 1)%nat _ _ Hp Hhere) in Hprev. done.
  - rewrite (Hmono (S (i - 1)) _ _) in Hnext; [done| |exact Hn].
    by replace (S (i - 1)) with i in * by lia.
Qed.

(** X6. A series of closing prices that never falls, or never rises, from
    one day to the next (a flat series included) has no support and no
    resistance level, for every window of at least 1. *)
Theorem no_levels_without_turn (df : DataFrame string) (window num_levels : Z) :
  1 <= window ->
  never_falls (closes df) \/ never_rises (closes df) ->
  find_support_resistance df window num_levels = Ok ([], []).
Proof.
  intros Hw Hmono.
  destruct (detector_levels df window num_levels Hw)
    as (sup & res & -> & _ & _ & Hsup & Hres).
  assert (sup = []) as ->.
  { apply no_elements_nil. intros v Hv. apply Hsup in Hv as (i & Hext & _).
    by eapply (no_extremum_without_turn float_lt); eauto. }
  assert (res = []) as ->.
  { apply no_elements_nil. intros v Hv. apply Hres in Hv as (i & Hext & _).
    by eapply (no_extremum_without_turn float_gt); eauto. }
  unfold Py.slice_to. rewrite !take_nil. by destruct (0 <=? num_levels).
Qed.

Lemma no_levels_without_turn_witness :
  find_support_resistance (close_frame [3; 3; 4; 7; 7; 9]) 2 3 = Ok ([], []).
Proof.
  apply (no_levels_without_turn (close_frame [3; 3; 4; 7; 7; 9]) 2 3); [lia|].
  left. intros i x y Hx Hy.
  do 6 (destruct i as [|i]; [vm_compute in Hx, Hy; by simplify_eq|]).
  vm_compute in Hy. destruct i; discriminate.
Defined.

(** ** The two sliders of the detector *)

#[local] Instance lt_antisymm : AntiSymm (=) Z.lt.
Proof. intros x y ? ?. lia. Qed.

#[local] Instance gt_antisymm : AntiSymm (=) Z.gt.
Proof. intros x y ? ?. lia. Qed.

(** Two strictly sorted lists with the same members are the same list. *)
Lemma ascending_unique (l k : list Z) :
  StronglySorted Z.lt l -> StronglySorted Z.lt k -> (forall v, v ∈ l <-> v ∈ k) -> l = k.
Proof.
  intros Hl Hk Hsame. apply (StronglySorted_unique Z.lt); [done..|].
  apply NoDup_Permutation; auto using StronglySorted_lt_NoDup.
Qed.

Lemma descending_unique (l k : list Z) :
  StronglySorted Z.gt l -> StronglySorted Z.gt k -> (forall v, v ∈ l <-> v ∈ k) -> l = k.
Proof.
  intros Hl Hk Hsame. apply (StronglySorted_unique Z.gt); [done..|].
  apply NoDup_Permutation; auto using StronglySorted_gt_NoDup.
Qed.

Lemma take_prefix_le {A} (l : list A) (n m : nat) :
  (n <= m)%nat -> take n l `prefix_of` take m l.
Proof.
  intros Hnm. replace n with (n `min` m)%nat by lia.
  rewrite <- take_take. apply prefix_take.
Qed.

(** X7. Asking for more levels only adds levels: for a window of at least
    1 and [0 <= n <= m], the support levels returned for [n] are the first
    ones of those returned for [m], and likewise for resistance. *)
Theorem more_levels_extend (df : DataFrame string) (window n m : Z) :
  1 <= window ->
  0 <= n <= m ->
  exists sup_n res_n sup_m res_m,
    find_support_resistance df window n = Ok (sup_n, res_n) /\
    find_support_resistance df window m = Ok (sup_m, res_m) /\
    sup_n `prefix_of` sup_m /\
    res_n `prefix_of` res_m.
Proof.
  intros Hw Hnm.
  destruct (detector_levels df window n Hw) as (s1 & r1 & -> & Hs1 & Hr1 & Hse1 & Hre1).
  destruct (detector_levels df window m Hw) as (s2 & r2 & -> & Hs2 & Hr2 & Hse2 & Hre2).
  assert (s1 = s2) as ->.
  { apply ascending_unique; [done..|]. intros v. by rewrite Hse1, Hse2. }
  assert (r1 = r2) as ->.
  { apply descending_unique; [done..|]. intros v. by rewrite Hre1, Hre2. }
  eexists _, _, _, _. split; [reflexivity|]. split; [reflexivity|].
  rewrite !slice_to_take by lia. split; apply take_prefix_le; lia.
Qed.

Lemma more_levels_extend_witness :
  exists sup_n res_n sup_m res_m,
    find_support_resistance sample_dip 1 1 = Ok (sup_n, res_n) /\
    find_support_resistance sample_dip 1 4 = Ok (sup_m, res_m) /\
    sup_n `prefix_of` sup_m /\
    res_n `prefix_of` res_m.
Proof. apply (more_levels_extend sample_dip 1 1 4); lia. Defined.

Lemma local_extremum_narrower cmp (data : list float64) (w w' : Z) (i : nat) :
  w <= w' -> local_extremum cmp data w' i -> local_extremum cmp data w i.
Proof.
  intros Hw [Hi Hall]. split; [done|]. intros s Hs. apply Hall. lia.
Qed.

(** The untruncated list of levels is no longer than the frame. *)
Lemma levels_fit (df : DataFrame string) cmp (window : Z) (all : list Z) :
  NoDup all ->
  (forall v, v ∈ all -> extremum_price cmp df window v) ->
  (length all <= length (df_rows df))%nat.
Proof.
  intros Hnd Hall.
  assert (all ⊆+ finite_values (closes df)) as Hsub.
  { apply NoDup_submseteq; [done|]. intros v Hv.
    destruct (Hall v Hv) as (i & _ & Hi). apply finite_values_elem.
    by eapply list_elem_of_lookup_2. }
  apply submseteq_length in Hsub.
  assert (length (finite_values (closes df)) <= length (closes df))%nat.
  { unfold finite_values. generalize (closes df).
    induction l as [|[x|] l IH]; [done| |];
      change (omap id (?c :: l)) with (from_option (fun y => y :: omap id l) (omap id l) c);
      simpl; lia. }
  pose proof (closes_length df). lia.
Qed.

(** X8. A wider window is less sensitive: with a number of levels that
    truncates nothing (at least the number of rows), every support level
    found with a window [w' >= w >= 1] is also found with window [w], and
    likewise for resistance. *)
Theorem wider_window_fewer_levels (df : DataFrame string) (w w' num_levels : Z) :
  1 <= w <= w' ->
  Z.of_nat (length (df_rows df)) <= num_levels ->
  exists sup res sup' res',
    find_support_resistance df w num_levels = Ok (sup, res) /\
    find_support_resistance df w' num_levels = Ok (sup', res') /\
    sup' ⊆ sup /\ res' ⊆ res.
Proof.
  intros Hw Hn.
  destruct (detector_levels df w num_levels ltac:(lia))
    as (s1 & r1 & -> & Hs1 & Hr1 & Hse1 & Hre1).
  destruct (detector_levels df w' num_levels ltac:(lia))
    as (s2 & r2 & -> & Hs2 & Hr2 & Hse2 & Hre2).
  eexists _, _, _, _. split; [reflexivity|]. split; [reflexivity|].
  rewrite !slice_to_take by lia.
  assert (forall cmp all, NoDup all ->
            (forall v, v ∈ all -> extremum_price cmp df w v) ->
            take (Z.to_nat num_levels) all = all) as Hfull.
  { intros cmp all Hnd Hall. apply take_ge.
    pose proof (levels_fit df cmp w all Hnd Hall). lia. }
  rewrite (Hfull float_lt s1), (Hfull float_gt r1);
    [|by apply StronglySorted_gt_NoDup|intros v; apply Hre1
     |by apply StronglySorted_lt_NoDup|intros v; apply Hse1].
  split; intros v Hv%elem_of_take; destruct Hv as (j & Hv%list_elem_of_lookup_2 & _).
  - apply Hse1. apply Hse2 in Hv as (i & Hext & Hi). exists i. split; [|done].
    eapply local_extremum_narrower; [|exact Hext]. lia.
  - apply Hre1. apply Hre2 in Hv as (i & Hext & Hi). exists i. split; [|done].
    eapply local_extremum_narrower; [|exact Hext]. lia.
Qed.

Lemma wider_window_fewer_levels_witness :
  exists sup res sup' res',
    find_support_resistance (close_frame [1; 5; 2; 6; 1; 7; 1]) 1 7 = Ok (sup, res) /\
    find_support_resistance (close_frame [1; 5; 2; 6; 1; 7; 1]) 2 7 = Ok (sup', res') /\
    sup' ⊆ sup /\ res' ⊆ res.
Proof.
  apply (wider_window_fewer_levels (close_frame [1; 5; 2; 6; 1; 7; 1]) 1 2 7);
    [lia | simpl; lia].
Defined.

(** ** The chart builder: missing data, lines, slicing *)

Lemma column_values_missing (df : DataFrame string) (label : string) :
  label ∉ df_columns df -> Pd.column_values id df label = Raise (KeyError label).
Proof. intros H. unfold Pd.column_values. by rewrite (position_None _ _ H). Qed.

Lemma candlestick_missing (plot_data : DataFrame string) (f : string) :
  f ∈ ["Open"; "High"; "Low"; close_label] -> f ∉ df_columns plot_data ->
  exists key, candlestick_of plot_data = Raise (KeyError key).
Proof.
  intros Hf Hmissing. unfold candlestick_of.
  assert (forall label, label ∈ ["Open"; "High"; "Low"; close_label] ->
            (exists vs, Pd.column_values id plot_data label = Ok vs) \/
            Pd.column_values id plot_data label = Raise (KeyError label)) as Hcol.
  { intros label _. unfold Pd.column_values.
    destruct (Pd.position label (df_columns plot_data)); eauto. }
  assert (forall label vs, Pd.column_values id plot_data label = Ok vs -> label <> f) as Hne.
  { intros label vs Hvs ->. apply column_values_has_column in Hvs.
    by apply bool_decide_eq_true in Hvs. }
  destruct (Hcol "Open" ltac:(set_solver)) as [[o Ho]| ->]; [|simpl; eauto].
  destruct (Hcol "High" ltac:(set_solver)) as [[h Hh]|Hh]; rewrite Ho, Hh; [|simpl; eauto].
  destruct (Hcol "Low" ltac:(set_solver)) as [[l Hl]|Hl]; simpl; rewrite Hl; [|simpl; eauto].
  destruct (Hcol close_label ltac:(set_solver)) as [[c Hc]|Hc]; simpl; rewrite Hc;
    [|simpl; eauto].
  exfalso. set_solver.
Qed.

(** X9. Whatever the S&R and SMA settings (a window of 0 included), a ticker
    that has no column in a multi-ticker frame, or whose slice lacks one of
    "Open", "High", "Low", "Close", gets the missing-data warning: the
    chart builder raises nothing and draws no chart. *)
Theorem missing_prices_give_warning (df : AnyFrame) (ticker : string)
    (height sr_window sr_num_levels : Z) (show_sma : bool) (sma_period : nat) :
  (forall plot_data, plot_data_of df ticker = Ok plot_data ->
     exists f, f ∈ ["Open"; "High"; "Low"; close_label] /\ f ∉ df_columns plot_data) ->
  plot_candlestick df ticker height sr_window sr_num_levels show_sma sma_period
  = Ok (Warning ("Required OHLC data is missing for **" +:+ ticker
                 +:+ "** in this range.")).
Proof.
  intros Hmissing. unfold plot_candlestick.
  pose proof (plot_data_key_error df ticker) as Hslice.
  destruct (plot_data_of df ticker) as [plot_data|[]]; simpl in *; try done.
  destruct (Hmissing plot_data eq_refl) as (f & Hf & Hnot).
  destruct (candlestick_missing plot_data f Hf Hnot) as [key ->]. reflexivity.
Qed.

Lemma missing_prices_give_warning_witness :
  plot_candlestick (FlatFrame sample_dip_wide) "AAPL" 300 0 0 true 20
  = Ok (Warning "Required OHLC data is missing for **AAPL** in this range.").
Proof.
  apply (missing_prices_give_warning (FlatFrame sample_dip_wide) "AAPL" 300 0 0 true 20).
  intros plot_data [= <-]. exists "High". split; [set_solver|].
  unfold sample_dip_wide, close_label. simpl. set_solver.
Defined.

(** X10. For a window of at least 1 and [num_levels >= 0], a call without
    the SMA on a slice that has its four price columns draws a chart whose
    only trace is the candlesticks and whose horizontal lines are the
    detector's support levels followed by its resistance levels, at most
    [2 * num_levels] lines in all. *)
Theorem chart_lines_are_levels (df : AnyFrame) (ticker : string)
    (height sr_window sr_num_levels : Z) (sma_period : nat)
    (plot_data : DataFrame string) (candles : trace) :
  1 <= sr_window ->
  0 <= sr_num_levels ->
  plot_data_of df ticker = Ok plot_data ->
  candlestick_of plot_data = Ok candles ->
  exists support resistance,
    find_support_resistance plot_data sr_window sr_num_levels = Ok (support, resistance) /\
    plot_candlestick df ticker height sr_window sr_num_levels false sma_period
    = Ok (PlotlyChart
            (mkFigure [candles]
                      (map (mkHLine Support) support
                       ++ map (mkHLine Resistance) resistance)
                      (ticker +:+ " Candlestick Chart") height)) /\
    Z.of_nat (length (map (mkHLine Support) support
                      ++ map (mkHLine Resistance) resistance))
    <= 2 * sr_num_levels.
Proof.
  intros Hw Hn Hslice Hcandles.
  destruct (detector_levels plot_data sr_window sr_num_levels Hw)
    as (sup & res & Hrun & _).
  rewrite !slice_to_take in Hrun by done.
  eexists _, _. split; [exact Hrun|]. split.
  - unfold plot_candlestick. rewrite Hslice. simpl. rewrite Hcandles. simpl.
    rewrite Hrun. reflexivity.
  - rewrite length_app, !length_map, !length_take. lia.
Qed.

Lemma chart_lines_are_levels_witness :
  exists support resistance,
    find_support_resistance
      (mkDF ["Close"; "High"; "Low"; "Open"]
            [(1, [Some 11; Some 12; Some 9; Some 10]);
             (3, [Some 15; Some 16; Some 13; Some 14]);
             (4, [Some 13; Some 15; Some 12; Some 15]);
             (5, [Some 17; Some 18; Some 12; Some 13])]) 1 3
    = Ok (support, resistance) /\
    plot_candlestick (any_dropna sample_joined) "AAPL" 300 1 3 false 20
    = Ok (PlotlyChart
            (mkFigure [Candlestick [1; 3; 4; 5]
                         [Some 10; Some 14; Some 15; Some 13]
                         [Some 12; Some 16; Some 15; Some 18]
                         [Some 9; Some 13; Some 12; Some 12]
                         [Some 11; Some 15; Some 13; Some 17]]
                      (map (mkHLine Support) support
                       ++ map (mkHLine Resistance) resistance)
                      "AAPL Candlestick Chart" 300)) /\
    Z.of_nat (length (map (mkHLine Support) support
                      ++ map (mkHLine Resistance) resistance))
    <= 2 * 3.
Proof.
  apply (chart_lines_are_levels (any_dropna sample_joined) "AAPL" 300 1 3 20);
    [lia | lia | reflexivity | reflexivity].
Defined.

(** The column of field [f] in a ticker's slice sits where the column
    [(f, ticker)] sits in the whole frame, cell for cell. *)
Lemma select_position (f ticker : string) (cols : list (string * string)) :
  let keep := map (fun l : string * string => bool_decide (snd l = ticker)) cols in
  let names :=
    map fst (List.filter (fun l : string * string => bool_decide (snd l = ticker)) cols) in
  (Pd.position (f, ticker) cols = None /\ Pd.position f names = None) \/
  (exists j j', Pd.position (f, ticker) cols = Some j /\ Pd.position f names = Some j' /\
     forall cells : list float64, length cells = length cols ->
       mask_cells keep cells !! j' = cells !! j).
Proof.
  induction cols as [|[a b] cols IH]; simpl; [by left|].
  destruct (decide (b = ticker)) as [->|Hb].
  - rewrite bool_decide_eq_true_2 by done. simpl.
    destruct (decide (a = f)) as [->|Ha].
    + right. exists 0%nat, 0%nat.
      destruct (decide ((f, ticker) = (f, ticker))); [|done].
      split; [done|]. split; [done|]. by intros [|x xs] Hlen.
    + destruct (decide ((a, ticker) = (f, ticker))) as [[= ?]|_]; [done|].
      destruct IH as [[-> ->]|(j & j' & -> & -> & Hcells)]; [by left|right].
      exists (S j), (S j'). split; [done|]. split; [done|].
      intros [|x xs] Hlen; [done|]. simpl in *. apply Hcells. lia.
  - rewrite bool_decide_eq_false_2 by done. simpl.
    destruct (decide ((a, b) = (f, ticker))) as [[= ? ?]|_]; [done|].
    destruct IH as [[-> ->]|(j & j' & -> & -> & Hcells)]; [by left|right].
    exists (S j), j'. split; [done|]. split; [done|].
    intros [|x xs] Hlen; [done|]. simpl in *. apply Hcells. lia.
Qed.

(** X11. Slicing a well-formed multi-ticker frame by a ticker keeps every
    date, and the column of a field in the slice is the column of (field,
    ticker) in the frame: a chart shows its own ticker's prices.  A field
    the ticker lacks is missing from the slice as well. *)
Theorem slice_shows_own_prices (df : DataFrame (string * string)) (ticker : string)
    (plot_data : DataFrame string) (show : string * string -> string) :
  well_formed df ->
  select_ticker df ticker = Ok plot_data ->
  Pd.index plot_data = Pd.index df /\
  forall f vs,
    Pd.column_values id plot_data f = Ok vs
    <-> Pd.column_values show df (f, ticker) = Ok vs.
Proof.
  intros Hwf Hsel. unfold select_ticker in Hsel.
  destruct (Np.any _); [|done]. injection Hsel as <-. split.
  - unfold Pd.index. simpl. rewrite map_map. by apply map_ext.
  - intros f vs. unfold Pd.column_values. simpl.
    destruct (select_position f ticker (df_columns df))
      as [[-> ->]|(j & j' & -> & -> & Hcells)]; [done|].
    rewrite map_map. simpl.
    assert (map (fun r : Z * list float64 =>
                   default NaN (mask_cells
                     (map (fun l : string * string => bool_decide (snd l = ticker))
                          (df_columns df)) (snd r) !! j')) (df_rows df)
            = map (fun r : Z * list float64 => default NaN (snd r !! j)) (df_rows df))
      as ->; [|done].
    apply map_ext_in. intros r Hr. f_equal. apply Hcells.
    unfold well_formed in Hwf. rewrite Forall_forall in Hwf.
    apply Hwf. by apply list_elem_of_In.
Qed.

Lemma slice_shows_own_prices_witness :
  exists plot_data,
    select_ticker
      (mkDF [("Close", "AAPL"); ("Close", "MSFT"); ("Open", "AAPL")]
            [(1, [Some 11; Some 21; Some 10]); (2, [Some 14; NaN; Some 11])]) "MSFT"
    = Ok plot_data /\
    Pd.index plot_data = [1; 2] /\
    Pd.column_values id plot_data "Close" = Ok [Some 21; NaN].
Proof.
  eexists. split; [reflexivity|].
  destruct (slice_shows_own_prices
              (mkDF [("Close", "AAPL"); ("Close", "MSFT"); ("Open", "AAPL")]
                    [(1, [Some 11; Some 21; Some 10]); (2, [Some 14; NaN; Some 11])])
              "MSFT" _ fst ltac:(repeat constructor) eq_refl) as [Hindex Hcols].
  split; [exact Hindex|]. apply Hcols. reflexivity.
Defined.

(** ** The moving average: missing closes *)

Lemma finite_values_cons (c : float64) (l : list float64) :
  finite_values (c :: l)
  = match c with Some v => v :: finite_values l | None => finite_values l end.
Proof. by destruct c. Qed.

Lemma finite_values_length (l : list float64) :
  (length (finite_values l) <= length l)%nat.
Proof.
  induction l as [|c l IH]; [done|]. rewrite finite_values_cons.
  destruct c; simpl; lia.
Qed.

Lemma finite_values_shorter (l : list float64) :
  NaN ∈ l -> (length (finite_values l) < length l)%nat.
Proof.
  induction l as [|c l IH]; [by rewrite elem_of_nil|].
  rewrite elem_of_cons, finite_values_cons. intros [<-|Hin].
  - pose proof (finite_values_length l). simpl. lia.
  - specialize (IH Hin). destruct c; simpl; lia.
Qed.

Lemma window_cells_length (w i : nat) (xs : list float64) :
  (length (window_cells w i xs) <= w)%nat.
Proof. unfold window_cells. rewrite length_take. lia. Qed.

(** X12. A missing close blanks the overlay over one whole period: if the
    close at position [j] is NaN, the moving average of period [p] is
    undefined at every position from [j] to [j + p - 1]. *)
Theorem missing_close_blanks_period (p : nat) (xs : list float64) (j i : nat) :
  xs !! j = Some NaN ->
  (j <= i < j + p)%nat ->
  (i < length xs)%nat ->
  rolling_mean p xs !! i = Some None.
Proof.
  intros Hj Hi Hlen. unfold rolling_mean.
  rewrite list_lookup_fmap, lookup_seq_lt by done. simpl. f_equal.
  assert (NaN ∈ window_cells p i xs) as Hin.
  { unfold window_cells. apply list_elem_of_lookup. exists (j - (i + 1 - p))%nat.
    rewrite lookup_take_lt by lia. rewrite lookup_drop.
    by replace (i + 1 - p + (j - (i + 1 - p)))%nat with j by lia. }
  pose proof (finite_values_shorter _ Hin) as Hshort.
  pose proof (window_cells_length p i xs) as Hw.
  replace (p <=? _)%nat with false by (symmetry; apply Nat.leb_gt; lia).
  reflexivity.
Qed.

Lemma missing_close_blanks_period_witness :
  rolling_mean 2 [Some 4; NaN; Some 6; Some 8] !! 2%nat = Some None.
Proof.
  apply (missing_close_blanks_period 2 [Some 4; NaN; Some 6; Some 8] 1 2);
    [reflexivity | lia | simpl; lia].
Defined.

(** ** The fetcher's cache *)

Lemma cache_get_put now now' req data c :
  cache_get now' req (cache_put now req data c)
  = if now' - now <? ttl then Some data else None.
Proof. unfold cache_put. simpl. by destruct (decide (req = req)). Qed.

Section CacheProperties.
Variable yf_download : Z -> Request -> result AnyFrame.

(** What a call that finds nothing fresh in the cache does. *)
Lemma get_stock_data_miss now req s :
  cache_get now req (cache s) = None ->
  get_stock_data yf_download now req s
  = match fst (fst req) with
    | [] =>
        (Ok (FlatFrame Pd.empty_frame),
         mkSession (cache_put now req (FlatFrame Pd.empty_frame) (cache s))
                   (invocations s ++ [req]) (downloads s))
    | _ :: _ =>
        match yf_download now req with
        | Ok joined =>
            (Ok (any_dropna joined),
             mkSession (cache_put now req (any_dropna joined) (cache s))
                       (invocations s ++ [req]) (downloads s ++ [req]))
        | Raise e =>
            (Raise e, mkSession (cache s) (invocations s ++ [req]) (downloads s ++ [req]))
        end
    end.
Proof.
  intros Hmiss. unfold get_stock_data. simpl. rewrite Hmiss.
  unfold get_stock_data_body. simpl.
  destruct (fst (fst req)); [done|]. by destruct (yf_download now req).
Qed.

Lemma get_stock_data_hit now req s data :
  cache_get now req (cache s) = Some data ->
  get_stock_data yf_download now req s
  = (Ok data, mkSession (cache s) (invocations s ++ [req]) (downloads s)).
Proof. intros Hhit. unfold get_stock_data. simpl. by rewrite Hhit. Qed.

(** X14. The cache window.  After a call at time [now] that found nothing
    fresh in the cache and returned a dataset, a call with the same
    arguments at time [now'] returns that same dataset without calling the
    provider when [now' - now < 3600] seconds, and calls the provider again
    when [now' - now >= 3600] (for a non-empty ticker list). *)
Theorem cache_window (now now' : Z) (req : Request) (s : Session) (data : AnyFrame) :
  cache_get now req (cache s) = None ->
  fst (get_stock_data yf_download now req s) = Ok data ->
  let s1 := snd (get_stock_data yf_download now req s) in
  (now' - now < ttl ->
     fst (get_stock_data yf_download now' req s1) = Ok data /\
     downloads (snd (get_stock_data yf_download now' req s1)) = downloads s1) /\
  (ttl <= now' - now -> fst (fst req) <> [] ->
     downloads (snd (get_stock_data yf_download now' req s1)) = downloads s1 ++ [req]).
Proof.
  intros Hmiss Hdata s1.
  assert (cache s1 = cache_put now req data (cache s)) as Hcache.
  { subst s1. rewrite get_stock_data_miss in Hdata |- * by done.
    destruct (fst (fst req)); simpl in *; [by injection Hdata as <-|].
    destruct (yf_download now req); simpl in *; [by injection Hdata as <-|done]. }
  split.
  - intros Hfresh.
    rewrite (get_stock_data_hit now' req s1 data); [done|].
    rewrite Hcache, cache_get_put.
    by destruct (now' - now <? ttl) eqn:?; [|lia].
  - intros Hstale Hreq.
    rewrite get_stock_data_miss.
    + destruct (fst (fst req)); [done|]. by destruct (yf_download now' req).
    + rewrite Hcache, cache_get_put.
      by destruct (now' - now <? ttl) eqn:?; [lia|].
Qed.

(** X15. A failed fetch is not cached: when the fetcher raises, the
    exception is the provider's for this very call, the ticker list is not
    empty, the cache is left as it was, and the provider was called once. *)
Theorem failure_is_not_cached (now : Z) (req : Request) (s : Session) (e : exn) :
  fst (get_stock_data yf_download now req s) = Raise e ->
  yf_download now req = Raise e /\
  fst (fst req) <> [] /\
  cache (snd (get_stock_data yf_download now req s)) = cache s /\
  downloads (snd (get_stock_data yf_download now req s)) = downloads s ++ [req].
Proof.
  destruct (cache_get now req (cache s)) as [hit|] eqn:Hget.
  - by rewrite (get_stock_data_hit now req s hit).
  - rewrite get_stock_data_miss by done.
    destruct (fst (fst req)); [done|].
    destruct (yf_download now req); simpl; [done|]. by intros [= ->].
Qed.

Lemma get_stock_data_logs now req s :
  invocations (snd (get_stock_data yf_download now req s)) = invocations s ++ [req] /\
  (downloads (snd (get_stock_data yf_download now req s)) = downloads s \/
   (downloads (snd (get_stock_data yf_download now req s)) = downloads s ++ [req] /\
    fst (fst req) <> [])).
Proof.
  destruct (cache_get now req (cache s)) as [hit|] eqn:Hget.
  - rewrite (get_stock_data_hit now req s hit) by done. simpl. auto.
  - rewrite get_stock_data_miss by done.
    destruct (fst (fst req)); simpl; [auto|].
    destruct (yf_download now req); simpl; auto.
Qed.

(** X16. Over any history of fetches: every fetch is logged as one
    invocation, the provider is called at most once per invocation, and it
    is never called with an empty ticker list. *)
Theorem provider_calls_bounded (history : list (Z * Request)) :
  invocations (session_after yf_download history) = map snd history /\
  (length (downloads (session_after yf_download history)) <= length history)%nat /\
  Forall (fun req : Request => fst (fst req) <> [])
         (downloads (session_after yf_download history)).
Proof.
  induction history as [|call history IH] using rev_ind; [by repeat split|].
  unfold session_after in *. rewrite foldl_snoc.
  set (s := foldl _ initial_session history) in *.
  destruct IH as (Hinv & Hlen & Hall).
  destruct (get_stock_data_logs (fst call) (snd call) s) as [Hinv' Hdl].
  rewrite Hinv', Hinv, map_app, length_app. simpl.
  split; [done|].
  destruct Hdl as [-> | [-> Hreq]].
  - split; [lia|done].
  - rewrite length_app, Forall_app. simpl. split; [lia|]. split; [done|].
    by repeat constructor.
Qed.

End CacheProperties.

Lemma cache_window_witness :
  fst (get_stock_data sample_provider 4000
         (["AAPL"; "MSFT"], 1, 4)
         (snd (get_stock_data sample_provider 1000 (["AAPL"; "MSFT"], 1, 4)
                 initial_session)))
  = Ok (any_dropna sample_joined).
Proof.
  apply (cache_window sample_provider 1000 4000 (["AAPL"; "MSFT"], 1, 4)
           initial_session (any_dropna sample_joined) eq_refl eq_refl).
  unfold ttl. lia.
Defined.

Lemma failure_is_not_cached_witness :
  cache (snd (get_stock_data offline_provider 1000 (["AAPL"], 1, 4) initial_session))
  = [].
Proof.
  apply (failure_is_not_cached offline_provider 1000 (["AAPL"], 1, 4) initial_session
           (ProviderError "no route to host") eq_refl).
Defined.

(** ** The script: one fetch per run, the empty dataset, the drawn grid *)

Lemma dropna_nothing_complete (joined : AnyFrame) :
  Forall (fun r => ~ complete r) (any_rows joined) ->
  any_empty (any_dropna joined) = true.
Proof.
  intros Hnone.
  assert (forall rows : list (Z * list float64),
            Forall (fun r => ~ complete r) rows -> List.filter Pd.complete_row rows = [])
    as Hfilter.
  { induction 1 as [|r rows Hr _ IH]; simpl; [done|].
    destruct (Pd.complete_row r) eqn:Hc; [|done].
    by apply complete_row_spec in Hc. }
  destruct joined as [df|df]; simpl in *; unfold Pd.empty, Pd.dropna; simpl;
    rewrite (Hfilter _ Hnone); by destruct (df_columns df).
Qed.

Section ScriptProperties.
Variable yf_download : Z -> Request -> result AnyFrame.

(** X17. The row filter can blank the whole page: when the provider's
    joined frame has a missing cell on every date (one selected ticker
    without data is enough) and nothing fresh is cached, the run shows the
    no-data warning alone and draws no chart for any ticker. *)
Theorem gap_on_every_date_blanks_page (sb : Sidebar) (now : Z) (s : Session)
    (joined : AnyFrame) :
  selected_tickers sb <> [] ->
  start_date sb < end_date sb ->
  cache_get now (selected_tickers sb, start_date sb, end_date sb) (cache s) = None ->
  yf_download now (selected_tickers sb, start_date sb, end_date sb) = Ok joined ->
  Forall (fun r => ~ complete r) (any_rows joined) ->
  fst (main yf_download sb now s)
  = mkPage [Warning "No data returned for the selected tickers/date range. Data might be missing or the market is closed."]
           [] None.
Proof.
  intros Hsel Hdates Hmiss Hjoined Hnone. unfold main.
  destruct (selected_tickers sb) as [|t ts] eqn:Hts; [done|].
  destruct (end_date sb <=? start_date sb) eqn:Hle; [lia|].
  rewrite (get_stock_data_miss yf_download now _ s Hmiss). simpl. rewrite Hjoined.
  rewrite (dropna_nothing_complete joined Hnone). reflexivity.
Qed.

(** X18. A run invokes the fetcher exactly once when the selection is not
    empty and the start date is before the end date, and not at all
    otherwise; it calls the provider at most once. *)
Theorem one_fetch_per_run (sb : Sidebar) (now : Z) (s : Session) :
  invocations (snd (main yf_download sb now s))
  = invocations s
    ++ (if negb (bool_decide (selected_tickers sb = []))
           && (start_date sb <? end_date sb)
        then [(selected_tickers sb, start_date sb, end_date sb)] else []) /\
  (length (downloads (snd (main yf_download sb now s)))
   <= S (length (downloads s)))%nat.
Proof.
  assert (snd (main yf_download sb now s)
          = if negb (bool_decide (selected_tickers sb = []))
               && (start_date sb <? end_date sb)
            then snd (get_stock_data yf_download now
                        (selected_tickers sb, start_date sb, end_date sb) s)
            else s) as ->.
  { unfold main.
    destruct (selected_tickers sb) as [|t ts] eqn:Hts; [done|].
    rewrite (bool_decide_eq_false_2 (t :: ts = [])) by done.
    destruct (end_date sb <=? start_date sb) eqn:Hle.
    { by replace (start_date sb <? end_date sb) with false by lia. }
    replace (start_date sb <? end_date sb) with true by lia.
    destruct (get_stock_data _ _ _ _) as [r s']. cbn [negb andb snd].
    destruct r; repeat case_match; by simplify_eq. }
  destruct (negb (bool_decide (selected_tickers sb = []))
            && (start_date sb <? end_date sb)).
  - destruct (get_stock_data_logs yf_download now
                (selected_tickers sb, start_date sb, end_date sb) s) as [-> Hdl].
    split; [done|]. destruct Hdl as [-> | [-> _]]; rewrite ?length_app; simpl; lia.
  - rewrite app_nil_r. split; [done|lia].
Qed.

(** X19. With the S&R box ticked (window slider at 1 or more), a valid
    date range and a fetch that returns a dataset with at least one row
    and one column, the run ends without an exception: the page shows the
    date banner and the three columns, column [c] holding the cells of
    the tickers of index [c], [c + 3], ... in selection order. *)
Theorem run_draws_grid (sb : Sidebar) (now : Z) (s : Session) (data : AnyFrame) :
  selected_tickers sb <> [] ->
  start_date sb < end_date sb ->
  sr_enabled sb = true ->
  1 <= sr_window_slider sb ->
  fst (get_stock_data yf_download now
         (selected_tickers sb, start_date sb, end_date sb) s) = Ok data ->
  any_empty data = false ->
  exists cols,
    fst (main yf_download sb now s)
    = mkPage [Markdown ("**Viewing data from " +:+ pretty (start_date sb)
                        +:+ " to " +:+ pretty (end_date sb) +:+ "**")]
             cols None /\
    length cols = CHART_COLUMNS /\
    forall c, (c < CHART_COLUMNS)%nat ->
      cols !! c
      = Some (flat_map (cell_elements sb data)
                       (column_tickers c 0 (selected_tickers sb))).
Proof.
  intros Hsel Hdates Hon Hw Hfetch Hdata.
  destruct (grid_loop_columns sb data (selected_tickers sb) 0
              (replicate CHART_COLUMNS [])) as (cols & Hrun & Hlen & Hcols).
  { intros t _.
    destruct (cell_content_returns sb data t Hon Hw) as [[fig ->]|[msg ->]]; eauto. }
  exists cols. split; [|split].
  - unfold main.
    destruct (selected_tickers sb) as [|t ts] eqn:Hts; [done|].
    destruct (end_date sb <=? start_date sb) eqn:Hle; [lia|].
    destruct (get_stock_data _ _ _ _) as [r s']. simpl in Hfetch. subst r.
    rewrite Hrun, Hdata. reflexivity.
  - by rewrite Hlen, length_replicate.
  - intros c Hc. by rewrite Hcols, lookup_replicate_2.
Qed.

End ScriptProperties.

Lemma gap_on_every_date_blanks_page_witness :
  fst (main (fun _ _ => Ok (MultiFrame
                              (mkDF [("Close", "AAPL"); ("Close", "TSLA")]
                                    [(1, [Some 11; NaN]); (2, [Some 14; NaN])])))
            (mkSidebar ["AAPL"; "TSLA"] 1 4 false 20 true 20 3) 100 initial_session)
  = mkPage [Warning "No data returned for the selected tickers/date range. Data might be missing or the market is closed."]
           [] None.
Proof.
  apply (gap_on_every_date_blanks_page
           (fun _ _ => Ok (MultiFrame
                             (mkDF [("Close", "AAPL"); ("Close", "TSLA")]
                                   [(1, [Some 11; NaN]); (2, [Some 14; NaN])])))
           (mkSidebar ["AAPL"; "TSLA"] 1 4 false 20 true 20 3) 100 initial_session
           (MultiFrame (mkDF [("Close", "AAPL"); ("Close", "TSLA")]
                             [(1, [Some 11; NaN]); (2, [Some 14; NaN])])));
    [discriminate | simpl; lia | reflexivity | reflexivity |].
  repeat constructor; unfold complete; simpl; intros H;
    apply Forall_cons in H as [_ H]; apply Forall_cons in H as [[x Hx] _]; discriminate.
Defined.

Lemma run_draws_grid_witness :
  exists cols,
    fst (main sample_provider sidebar_sr_on 100 initial_session)
    = mkPage [Markdown "**Viewing data from 1 to 4**"] cols None /\
    length cols = CHART_COLUMNS.
Proof.
  destruct (run_draws_grid sample_provider sidebar_sr_on 100 initial_session
              (any_dropna sample_joined)
              ltac:(discriminate) ltac:(simpl; lia) eq_refl ltac:(simpl; lia)
              eq_refl eq_refl) as (cols & Hpage & Hlen & _).
  exists cols. split; [exact Hpage | exact Hlen].
Defined.

(** ** The grid holds every ticker once *)

Lemma column_tickers_partition (tickers : list string) : forall i,
  column_tickers 0 i tickers ++ column_tickers 1 i tickers ++ column_tickers 2 i tickers
  ≡ₚ tickers.
Proof.
  induction tickers as [|t rest IH]; intros i; [done|].
  cbn [column_tickers]. specialize (IH (S i)).
  pose proof (Nat.mod_upper_bound i CHART_COLUMNS ltac:(done)) as Hlt.
  unfold CHART_COLUMNS in *.
  set (A := column_tickers 0 (S i) rest) in *.
  set (B := column_tickers 1 (S i) rest) in *.
  set (C := column_tickers 2 (S i) rest) in *.
  destruct (decide ((i mod 3)%nat = 0%nat)) as [H0|H0];
    destruct (decide ((i mod 3)%nat = 1%nat)) as [H1|H1];
    destruct (decide ((i mod 3)%nat = 2%nat)) as [H2|H2]; try lia.
  - simpl. by rewrite IH.
  - rewrite <- IH. simpl. symmetry. apply Permutation_middle.
  - rewrite <- IH, !app_assoc. symmetry. apply Permutation_middle.
Qed.

Lemma subheaders_cells (sb : Sidebar) (data : AnyFrame) (l : list string) :
  (forall t, exists el, cell_elements sb data t = [Subheader t; el] /\
               ((exists fig, el = PlotlyChart fig) \/ (exists msg, el = Warning msg))) ->
  subheaders (flat_map (cell_elements sb data) l) = l /\
  length (flat_map (cell_elements sb data) l) = (2 * length l)%nat.
Proof.
  intros Hcell. induction l as [|t l [IHs IHl]]; [done|].
  destruct (Hcell t) as (el & Ht & Hkind). cbn [flat_map]. rewrite Ht.
  unfold subheaders in *. cbn [app]. split.
  - destruct Hkind as [[fig ->]|[msg ->]]; simpl; f_equal; exact IHs.
  - simpl. rewrite IHl. lia.
Qed.

(** X20. With the S&R box ticked and its window slider at 1 or more, the
    grid loop finishes and the subheaders written into its three columns
    are the selected tickers, each exactly once: read column after column
    they are a rearrangement of the selection.  Every column holds two
    elements per ticker (the subheader and its chart or warning), and
    with at most [MAX_SELECTIONS = 9] tickers no column holds more than
    three tickers. *)
Theorem grid_holds_each_ticker_once (sb : Sidebar) (data : AnyFrame)
    (tickers : list string) :
  sr_enabled sb = true ->
  1 <= sr_window_slider sb ->
  exists cols,
    grid_loop sb data 0 tickers (replicate CHART_COLUMNS []) = (cols, None) /\
    concat (map subheaders cols) ≡ₚ tickers /\
    Forall (fun col => length col = (2 * length (subheaders col))%nat) cols /\
    ((length tickers <= MAX_SELECTIONS)%nat ->
     Forall (fun col => (length (subheaders col) <= 3)%nat) cols).
Proof.
  intros Hon Hw.
  assert (forall t, exists el, cell_content sb data t = Ok el /\
            ((exists fig, el = PlotlyChart fig) \/ (exists msg, el = Warning msg)))
    as Hcontent.
  { intros t. destruct (cell_content_returns sb data t Hon Hw) as [[fig H]|[msg H]];
      rewrite H; eauto 6. }
  assert (forall t, exists el, cell_elements sb data t = [Subheader t; el] /\
            ((exists fig, el = PlotlyChart fig) \/ (exists msg, el = Warning msg)))
    as Hcell.
  { intros t. destruct (Hcontent t) as (el & Hel & Hkind).
    exists el. unfold cell_elements. by rewrite Hel. }
  destruct (grid_loop_columns sb data tickers 0 (replicate CHART_COLUMNS []))
    as (cols & Hrun & Hlen & Hcols).
  { intros t _. destruct (Hcontent t) as (el & Hel & _). eauto. }
  exists cols. split; [done|].
  rewrite length_replicate in Hlen. unfold CHART_COLUMNS in *.
  destruct cols as [|c0 [|c1 [|c2 [|]]]]; try discriminate Hlen.
  pose proof (Hcols 0%nat) as H0. pose proof (Hcols 1%nat) as H1.
  pose proof (Hcols 2%nat) as H2. simpl in H0, H1, H2.
  injection H0 as ->. injection H1 as ->. injection H2 as ->.
  destruct (subheaders_cells sb data (column_tickers 0 0 tickers) Hcell) as [Hs0 Hl0].
  destruct (subheaders_cells sb data (column_tickers 1 0 tickers) Hcell) as [Hs1 Hl1].
  destruct (subheaders_cells sb data (column_tickers 2 0 tickers) Hcell) as [Hs2 Hl2].
  split; [|split].
  - cbn [map concat]. rewrite Hs0, Hs1, Hs2, app_nil_r.
    apply column_tickers_partition.
  - rewrite !Forall_cons, Hs0, Hs1, Hs2. repeat split; [done..|apply Forall_nil_2].
  - unfold MAX_SELECTIONS. intros Hmax.
    assert (forall c, (c < 3)%nat -> (length (column_tickers c 0 tickers) <= 3)%nat)
      as Hdepth.
    { intros c Hc.
      destruct (decide (length (column_tickers c 0 tickers) <= 3)%nat) as [|Hdeep];
        [done|].
      destruct (lookup_lt_is_Some_2 (column_tickers c 0 tickers) 3 ltac:(lia))
        as [t Ht].
      rewrite (column_tickers_lookup c tickers ltac:(unfold CHART_COLUMNS; lia)) in Ht.
      apply lookup_lt_Some in Ht. unfold CHART_COLUMNS in Ht. lia. }
    rewrite !Forall_cons, Hs0, Hs1, Hs2.
    repeat split; [apply Hdepth; lia..|apply Forall_nil_2].
Qed.

Lemma grid_holds_each_ticker_once_witness :
  exists cols,
    grid_loop sidebar_sr_on (any_dropna sample_joined) 0
      ["AAPL"; "MSFT"; "GOOGL"; "AMZN"] (replicate CHART_COLUMNS [])
    = (cols, None) /\
    concat (map subheaders cols) ≡ₚ ["AAPL"; "MSFT"; "GOOGL"; "AMZN"].
Proof.
  destruct (grid_holds_each_ticker_once sidebar_sr_on (any_dropna sample_joined)
              ["AAPL"; "MSFT"; "GOOGL"; "AMZN"] eq_refl ltac:(simpl; lia))
    as (cols & Hrun & Hperm & _).
  exists cols. split; [exact Hrun | exact Hperm].
Defined.

(** X21. Tickers that are absent from the dataset never end the run,
    whatever the S&R and SMA settings: if none of the selected tickers has
    a column in the frame, the loop finishes and every ticker's cell is
    its subheader followed by the not-available warning. *)
Theorem absent_tickers_get_warnings (sb : Sidebar) (data : AnyFrame)
    (tickers : list string) :
  (forall t, t ∈ tickers -> has_ohlc data t = false) ->
  exists cols,
    grid_loop sb data 0 tickers (replicate CHART_COLUMNS []) = (cols, None) /\
    forall c, (c < CHART_COLUMNS)%nat ->
      cols !! c
      = Some (flat_map (cell_elements sb data) (column_tickers c 0 tickers)) /\
      forall t, t ∈ column_tickers c 0 tickers ->
        cell_elements sb data t
        = [Subheader t;
           Warning ("OHLC data not available for **" +:+ t +:+ "** in this range.")].
Proof.
  intros Habsent.
  assert (forall t, t ∈ tickers ->
            cell_content sb data t
            = Ok (Warning ("OHLC data not available for **" +:+ t
                           +:+ "** in this range."))) as Hcell.
  { intros t Ht. unfold cell_content. by rewrite (Habsent t Ht). }
  destruct (grid_loop_columns sb data tickers 0 (replicate CHART_COLUMNS []))
    as (cols & Hrun & _ & Hcols).
  { intros t Ht. rewrite (Hcell t Ht). eauto. }
  exists cols. split; [done|]. intros c Hc. split.
  - by rewrite Hcols, lookup_replicate_2.
  - intros t Ht. unfold cell_elements. rewrite Hcell; [done|].
    apply list_elem_of_lookup in Ht as [k Hk].
    rewrite (column_tickers_lookup c tickers Hc) in Hk.
    by eapply list_elem_of_lookup_2.
Qed.

Lemma absent_tickers_get_warnings_witness :
  exists cols,
    grid_loop sidebar_sr_off (any_dropna sample_joined) 0 ["V"; "SPY"]
      (replicate CHART_COLUMNS [])
    = (cols, None).
Proof.
  destruct (absent_tickers_get_warnings sidebar_sr_off (any_dropna sample_joined)
              ["V"; "SPY"]) as (cols & Hrun & _).
  { intros t Ht. repeat (apply elem_of_cons in Ht as [->|Ht]; [reflexivity|]).
    by apply elem_of_nil in Ht. }
  exists cols. exact Hrun.
Defined.
